(** * Wan 2.2 video generation REST service

    A shallow embedding of [api.py]: the FastAPI handlers, the model cache
    behind [get_model], and the file the generation endpoint leaves in the
    output directory.  The diffusion library ([wan]), PIL, torch, [uuid] and
    the file system are outside the repository; what they answer during one
    request is collected in a record [World] that the handlers consult. *)

From Stdlib Require Import ZArith String Ascii List Floats.
From stdpp Require Import gmap strings pretty.
Import ListNotations.

Local Open Scope Z_scope.
Set Warnings "-register-all".

(** ** Python strings and paths *)

Module Py.

(** [sub in s] for two [str] values. *)
Fixpoint contains (sub s : string) : bool :=
  String.prefix sub s ||
  match s with
  | EmptyString => false
  | String _ s' => contains sub s'
  end.

Definition upper_ascii (c : ascii) : ascii :=
  let n := N_of_ascii c in
  if ((97 <=? n) && (n <=? 122))%N then ascii_of_N (n - 32) else c.

(** [s.upper()], on the ASCII letters. *)
Fixpoint upper (s : string) : string :=
  match s with
  | EmptyString => EmptyString
  | String c s' => String (upper_ascii c) (upper s')
  end.

Fixpoint endswith_sep (s : string) : bool :=
  match s with
  | EmptyString => false
  | String c EmptyString => bool_decide (c = "/"%char)
  | String _ s' => endswith_sep s'
  end.

(** [os.path.join(a, b)] of posixpath. *)
Definition os_path_join (a b : string) : string :=
  if String.prefix "/" b then b
  else if bool_decide (a = "") || endswith_sep a then a +:+ b
  else a +:+ "/" +:+ b.

(** A [pathlib.Path], by its parts. *)
Definition Path := list string.

(** [p / name] for a one-segment relative [name]. *)
Definition div (p : Path) (name : string) : Path := p ++ [name].

Definition name (p : Path) : string := List.last p "".

Definition parent (p : Path) : Path := removelast p.

Fixpoint join_parts (ps : list string) : string :=
  match ps with
  | [] => ""
  | [x] => x
  | x :: rest => x +:+ "/" +:+ join_parts rest
  end.

(** [str(p)]: the root part is ["/"] and is not followed by a separator. *)
Definition str_path (p : Path) : string :=
  match p with
  | [] => "."
  | "/"%string :: rest => "/" +:+ join_parts rest
  | _ => join_parts p
  end.

End Py.

(** ** Dictionaries that keep insertion order

    [WAN_CONFIGS], [SIZE_CONFIGS], [MAX_AREA_CONFIGS] and [SUPPORTED_SIZES]
    are dict literals of [wan.configs]; [list(d.keys())] depends on their
    order, so they are association lists read at the first match. *)

Module Dict.

Definition t (V : Type) := list (string * V).

Fixpoint get {V} (d : t V) (k : string) : option V :=
  match d with
  | [] => None
  | (k', v) :: d' => if bool_decide (k' = k) then Some v else get d' k
  end.

(** [k in d] *)
Definition mem {V} (k : string) (d : t V) : bool :=
  match get d k with Some _ => true | None => false end.

(** [list(d.keys())] *)
Definition keys {V} (d : t V) : list string := map fst d.

End Dict.

(** ** Values exchanged with the library *)

(** A guidance scale: a float, or the tuple some configurations hold. *)
Inductive Guidance :=
| Scale (x : float)
| Scales (xs : list float).

(** The fields of a [WAN_CONFIGS] entry that the service reads. *)
Record Config := {
  cfg_sample_steps : Z;
  cfg_sample_guide_scale : Guidance;
  cfg_frame_num : Z;
  cfg_sample_shift : float;
  cfg_sample_fps : Z;
}.

(** A video tensor; [video[None]] puts a dimension of size one in front. *)
Record Tensor := {
  shape : list Z;
  data : list float;
}.

Definition index_None (t : Tensor) : Tensor :=
  {| shape := 1 :: shape t; data := data t |}.

(** An image after [.convert("RGB")]. *)
Record RGBImage := {
  width : Z;
  height : Z;
  pixels : list (Z * Z * Z);
}.

Record UploadFile := {
  up_filename : string;
  up_content : string;
}.

Inductive ModelClass := WanT2V | WanTI2V | WanI2V.

(** Keyword arguments of the three model constructors. *)
Record ModelInit := {
  init_config : Config;
  init_checkpoint_dir : string;
  init_device_id : Z;
  init_rank : Z;
  init_t5_fsdp : bool;
  init_dit_fsdp : bool;
  init_use_sp : bool;
  init_t5_cpu : bool;
  init_convert_model_dtype : bool;
}.

(** A model object.  [handle] is the identity of the Python object: the
    number of model objects constructed before it. *)
Record Model := {
  handle : nat;
  model_class : ModelClass;
  model_init : ModelInit;
}.

(** Arguments of [model.generate].  [g_img] and the two size arguments are
    not passed by every branch: [None] is an argument left out,
    [Some None] is [img=None]. *)
Record GenerateArgs := {
  g_prompt : string;
  g_img : option (option RGBImage);
  g_size : option (Z * Z);
  g_max_area : option Z;
  g_frame_num : Z;
  g_shift : float;
  g_sample_solver : string;
  g_sampling_steps : Z;
  g_guide_scale : Guidance;
  g_seed : Z;
  g_offload_model : bool;
}.

Record SaveArgs := {
  sv_tensor : Tensor;
  sv_save_file : string;
  sv_fps : Z;
  sv_nrow : Z;
  sv_normalize : bool;
  sv_value_range : Z * Z;
}.

(** ** Exceptions *)

(** What a library call raised: the exception class and its message. *)
Record Failure := {
  failure_class : string;
  failure_message : string;
}.

(** The exceptions [api.py] raises itself, and [Foreign] for an exception
    that comes out of [wan], PIL or torch. *)
Inductive Exception :=
| HTTPException (status_code : Z) (detail : string)
| ValueError (msg : string)
| FileNotFoundError (msg : string)
| KeyError (key : string)
| Foreign (f : Failure).

(** [str(e)].  [HTTPException.__str__] is Starlette's; a [KeyError] shows
    the key quoted; the others show their message. *)
Definition str (e : Exception) : string :=
  match e with
  | HTTPException c d => pretty c +:+ ": " +:+ d
  | ValueError m => m
  | FileNotFoundError m => m
  | KeyError k => "'" +:+ k +:+ "'"
  | Foreign f => failure_message f
  end.

(** The answer of a library call. *)
Inductive Answer (A : Type) :=
| Ok (a : A)
| Failed (f : Failure).
Arguments Ok {A} a.
Arguments Failed {A} f.

Inductive Outcome (A : Type) :=
| Return (a : A)
| Raise (e : Exception).
Arguments Return {A} a.
Arguments Raise {A} e.

(** ** What the outside answers during one request *)

Record World := {
  os_path_exists : string -> bool;
  wan_init : ModelClass -> ModelInit -> option Failure;
  Image_open_convert : string -> Answer RGBImage;
  random_randint : Z -> Z -> Z;
  wan_generate : Model -> GenerateArgs -> Answer Tensor;
  uuid_uuid4 : string;
  save_video_raises : SaveArgs -> option Failure;
  cuda_empty_cache_raises : option Failure;
}.

(** ** Process state *)

Inductive Call :=
| CallInit (c : ModelClass) (a : ModelInit)
| CallGenerate (m : Model) (a : GenerateArgs)
| CallSave (a : SaveArgs).

(** [_model_cache] and the files of the output directory are the two things
    that outlive a request.  [constructed] counts the model objects built so
    far, and [calls] records the library calls, latest first; the two are
    there to state what was called, the handlers never read them. *)
Record State := {
  _model_cache : gmap string Model;
  files : gmap string Tensor;
  constructed : nat;
  calls : list Call;
}.

Definition initial : State :=
  {| _model_cache := ∅; files := ∅; constructed := 0%nat; calls := [] |}.

(** ** A state and exception monad for handler bodies

    A raised exception keeps the state reached so far: Python does not roll
    back the cache or the disk. *)

Definition Handler (A : Type) := State -> Outcome A * State.

Definition ret {A} (a : A) : Handler A := fun s => (Return a, s).

Definition raise {A} (e : Exception) : Handler A := fun s => (Raise e, s).

Definition bind {A B} (c : Handler A) (k : A -> Handler B) : Handler B :=
  fun s =>
    match c s with
    | (Return a, s') => k a s'
    | (Raise e, s') => (Raise e, s')
    end.

Notation "'let*' x ':=' c 'in' k" := (bind c (fun x => k))
  (at level 10, x name, c at level 100, k at level 200).
Notation "c ';;' k" := (bind c (fun _ => k))
  (at level 100, k at level 200, right associativity).

(** [try: c except Exception as e: h e] *)
Definition try_except {A} (c : Handler A) (h : Exception -> Handler A) : Handler A :=
  fun s =>
    match c s with
    | (Return a, s') => (Return a, s')
    | (Raise e, s') => h e s'
    end.

(** The result of a library call, inside a handler. *)
Definition lift {A} (r : Answer A) : Handler A :=
  match r with
  | Ok a => ret a
  | Failed f => raise (Foreign f)
  end.

Definition lift_raises (r : option Failure) : Handler unit :=
  match r with
  | Some f => raise (Foreign f)
  | None => ret tt
  end.

Definition when_raise (b : bool) (e : Exception) : Handler unit :=
  if b then raise e else ret tt.

(** [d[k]] *)
Definition subscript {V} (d : Dict.t V) (k : string) : Handler V :=
  match Dict.get d k with
  | Some v => ret v
  | None => raise (KeyError k)
  end.

(** State after one more recorded call, one more constructed object, a
    cache assignment, a written file. *)
Definition logged (c : Call) (s : State) : State :=
  {| _model_cache := _model_cache s; files := files s;
     constructed := constructed s; calls := c :: calls s |}.

Definition counted (s : State) : State :=
  {| _model_cache := _model_cache s; files := files s;
     constructed := S (constructed s); calls := calls s |}.

Definition cached (task : string) (m : Model) (s : State) : State :=
  {| _model_cache := <[task := m]> (_model_cache s); files := files s;
     constructed := constructed s; calls := calls s |}.

Definition written (path : string) (t : Tensor) (s : State) : State :=
  {| _model_cache := _model_cache s; files := <[path := t]> (files s);
     constructed := constructed s; calls := calls s |}.

Definition log (c : Call) : Handler unit :=
  fun s => (Return tt, logged c s).

(** ** JSON bodies and HTTP responses *)

Inductive Json :=
| JString (s : string)
| JArray (items : list Json)
| JObject (fields : list (string * Json)).

Definition json_strings (l : list string) : Json := JArray (map JString l).

Definition field_names (j : Json) : list string :=
  match j with
  | JObject fields => map fst fields
  | _ => []
  end.

Definition field (j : Json) (k : string) : option Json :=
  match j with
  | JObject fields => Dict.get fields k
  | _ => None
  end.

Record FileResponse := {
  fr_path : Py.Path;
  fr_media_type : string;
  fr_filename : string;
}.

Inductive Body :=
| JsonBody (j : Json)
| FileBody (f : FileResponse)
| TextBody (s : string).

Record Response := {
  status : Z;
  body : Body;
}.

(** What FastAPI sends for the result of a handler: 200 with the returned
    value, the status and [{"detail": ...}] of a raised [HTTPException], and
    a plain 500 for any other exception that leaves the handler. *)
Definition respond {A} (encode : A -> Body) (o : Outcome A) : Response :=
  match o with
  | Return a => {| status := 200; body := encode a |}
  | Raise (HTTPException c d) =>
      {| status := c; body := JsonBody (JObject [("detail", JString d)]) |}
  | Raise _ => {| status := 500; body := TextBody "Internal Server Error" |}
  end.

(** ** The service *)

(** The tables imported from [wan.configs] and the settings read from the
    environment when the module is loaded. *)
Class Deployment := {
  WAN_CONFIGS : Dict.t Config;
  SIZE_CONFIGS : Dict.t (Z * Z);
  MAX_AREA_CONFIGS : Dict.t Z;
  SUPPORTED_SIZES : Dict.t (list string);
  MODEL_TYPE : string;
  MODEL_PATH : string;
  DEVICE_ID : Z;
  OUTPUT_DIR : Py.Path;
}.

Definition sys_maxsize : Z := 2 ^ 63 - 1.

Section Service.

Context `{D : Deployment}.

(** *** Model cache *)

(** Calling a model class: the call is recorded, the library may raise,
    and otherwise a new object comes back. *)
Definition construct (w : World) (c : ModelClass) (a : ModelInit) : Handler Model :=
  log (CallInit c a);;
  match wan_init w c a with
  | Some f => raise (Foreign f)
  | None =>
      fun s =>
        (Return {| handle := constructed s; model_class := c; model_init := a |},
         counted s)
  end.

(** [_model_cache[task] = model] *)
Definition cache_store (task : string) (model : Model) : Handler unit :=
  fun s => (Return tt, cached task model s).

(** [_model_cache[task]] *)
Definition cache_subscript (task : string) : Handler Model :=
  fun s =>
    match _model_cache s !! task with
    | Some m => (Return m, s)
    | None => (Raise (KeyError task), s)
    end.

(** [task in _model_cache] *)
Definition cache_mem (task : string) : Handler bool :=
  fun s => (Return (bool_decide (is_Some (_model_cache s !! task))), s).

Definition get_model (w : World) (task : string) : Handler Model :=
  let* present := cache_mem task in
  (if negb present then
     when_raise (negb (Dict.mem task WAN_CONFIGS))
       (ValueError ("Unsupported task: " +:+ task));;
     let* cfg := subscript WAN_CONFIGS task in
     let checkpoint_dir :=
       Py.os_path_join MODEL_PATH ("Wan2.2-" +:+ Py.upper task) in
     when_raise (negb (os_path_exists w checkpoint_dir))
       (FileNotFoundError ("Model checkpoint not found at " +:+ checkpoint_dir));;
     let* model :=
       if Py.contains "t2v" task then
         construct w WanT2V
           {| init_config := cfg; init_checkpoint_dir := checkpoint_dir;
              init_device_id := DEVICE_ID; init_rank := 0;
              init_t5_fsdp := false; init_dit_fsdp := false;
              init_use_sp := false; init_t5_cpu := false;
              init_convert_model_dtype := true |}
       else if Py.contains "ti2v" task then
         construct w WanTI2V
           {| init_config := cfg; init_checkpoint_dir := checkpoint_dir;
              init_device_id := DEVICE_ID; init_rank := 0;
              init_t5_fsdp := false; init_dit_fsdp := false;
              init_use_sp := false; init_t5_cpu := true;
              init_convert_model_dtype := true |}
       else if Py.contains "i2v" task then
         construct w WanI2V
           {| init_config := cfg; init_checkpoint_dir := checkpoint_dir;
              init_device_id := DEVICE_ID; init_rank := 0;
              init_t5_fsdp := false; init_dit_fsdp := false;
              init_use_sp := false; init_t5_cpu := false;
              init_convert_model_dtype := true |}
       else raise (ValueError ("Unsupported task type: " +:+ task)) in
     cache_store task model
   else ret tt);;
  cache_subscript task.

(** *** Health and metadata endpoints *)

Definition root : Json :=
  JObject [("status", JString "healthy");
           ("message", JString "Wan 2.2 Video Generation API");
           ("model_type", JString MODEL_TYPE);
           ("available_tasks", json_strings (Dict.keys WAN_CONFIGS))].

Definition health_check : Json :=
  JObject [("status", JString "healthy")].

Definition list_tasks : Json :=
  JObject [("available_tasks", json_strings (Dict.keys WAN_CONFIGS));
           ("current_task", JString MODEL_TYPE)].

Definition list_sizes (task : string) : Outcome Json :=
  if negb (Dict.mem task SUPPORTED_SIZES) then
    Raise (HTTPException 400 ("Unknown task: " +:+ task))
  else
    match Dict.get SUPPORTED_SIZES task with
    | Some sizes =>
        Return (JObject [("task", JString task);
                         ("supported_sizes", json_strings sizes)])
    | None => Raise (KeyError task)
    end.

(** *** The generation endpoint *)

(** [x if x is not None else d], the shape of the three default
    resolutions at the top of [generate_video]. *)
Definition or_default {A} (x : option A) (d : A) : A :=
  match x with
  | None => d
  | Some v => v
  end.

(** Modelled from the spec: the body of [save_video] ([wan.utils.utils]) is
    missing; the spec has the generated video written to a file of the
    output directory, so a call that does not raise leaves its tensor on
    disk under [save_file]. *)
Definition save_video (w : World) (a : SaveArgs) : Handler unit :=
  log (CallSave a);;
  match save_video_raises w a with
  | Some f => raise (Foreign f)
  | None => fun s => (Return tt, written (sv_save_file a) (sv_tensor a) s)
  end.

(** [model.generate(...)] *)
Definition generate (w : World) (m : Model) (a : GenerateArgs) : Handler Tensor :=
  log (CallGenerate m a);;
  lift (wan_generate w m a).

Definition empty_cache (w : World) : Handler unit :=
  lift_raises (cuda_empty_cache_raises w).

(** The body of the [try] block. *)
Definition generate_video_try (w : World)
    (prompt : string) (image : option UploadFile) (task size : string)
    (frame_num : option Z) (seed : Z) (sample_steps : option Z)
    (guide_scale : option float) : Handler FileResponse :=
  when_raise (negb (Dict.mem task WAN_CONFIGS))
    (HTTPException 400 ("Unsupported task: " +:+ task));;
  when_raise (negb (Dict.mem size SIZE_CONFIGS))
    (HTTPException 400 ("Unsupported size: " +:+ size));;
  let* cfg := subscript WAN_CONFIGS task in
  let sample_steps := or_default sample_steps (cfg_sample_steps cfg) in
  let guide_scale :=
    or_default (Scale <$> guide_scale) (cfg_sample_guide_scale cfg) in
  let frame_num := or_default frame_num (cfg_frame_num cfg) in
  let seed := if seed <? 0 then random_randint w 0 sys_maxsize else seed in
  let* img :=
    match image with
    | Some upload =>
        let* opened := lift (Image_open_convert w (up_content upload)) in
        ret (Some opened)
    | None => ret None
    end in
  let* model := get_model w task in
  let* video :=
    if Py.contains "t2v" task then
      let* wh := subscript SIZE_CONFIGS size in
      generate w model
        {| g_prompt := prompt; g_img := None; g_size := Some wh;
           g_max_area := None; g_frame_num := frame_num;
           g_shift := cfg_sample_shift cfg; g_sample_solver := "unipc";
           g_sampling_steps := sample_steps; g_guide_scale := guide_scale;
           g_seed := seed; g_offload_model := true |}
    else if Py.contains "ti2v" task then
      let* wh := subscript SIZE_CONFIGS size in
      let* area := subscript MAX_AREA_CONFIGS size in
      generate w model
        {| g_prompt := prompt; g_img := Some img; g_size := Some wh;
           g_max_area := Some area; g_frame_num := frame_num;
           g_shift := cfg_sample_shift cfg; g_sample_solver := "unipc";
           g_sampling_steps := sample_steps; g_guide_scale := guide_scale;
           g_seed := seed; g_offload_model := true |}
    else if Py.contains "i2v" task then
      match img with
      | None => raise (HTTPException 400 "Image is required for i2v task")
      | Some picture =>
          let* area := subscript MAX_AREA_CONFIGS size in
          generate w model
            {| g_prompt := prompt; g_img := Some (Some picture);
               g_size := None; g_max_area := Some area;
               g_frame_num := frame_num; g_shift := cfg_sample_shift cfg;
               g_sample_solver := "unipc"; g_sampling_steps := sample_steps;
               g_guide_scale := guide_scale; g_seed := seed;
               g_offload_model := true |}
      end
    else raise (HTTPException 400 ("Unsupported task type: " +:+ task)) in
  let video_id := uuid_uuid4 w in
  let output_path := Py.div OUTPUT_DIR (video_id +:+ ".mp4") in
  save_video w
    {| sv_tensor := index_None video; sv_save_file := Py.str_path output_path;
       sv_fps := cfg_sample_fps cfg; sv_nrow := 1; sv_normalize := true;
       sv_value_range := (-1, 1) |};;
  empty_cache w;;
  ret {| fr_path := output_path; fr_media_type := "video/mp4";
         fr_filename := "wan_video_" +:+ video_id +:+ ".mp4" |}.

(** [try: ... except Exception as e: raise HTTPException(500, ...)] *)
Definition generate_video (w : World)
    (prompt : string) (image : option UploadFile) (task size : string)
    (frame_num : option Z) (seed : Z) (sample_steps : option Z)
    (guide_scale : option float) : Handler FileResponse :=
  try_except
    (generate_video_try w prompt image task size frame_num seed
       sample_steps guide_scale)
    (fun e =>
       raise (HTTPException 500 ("Video generation failed: " +:+ str e))).

(** *** Routing *)

(** The multipart form of [POST /generate]; a field left out is [None]. *)
Record GenerateForm := {
  form_prompt : string;
  form_image : option UploadFile;
  form_task : option string;
  form_size : option string;
  form_frame_num : option Z;
  form_seed : option Z;
  form_sample_steps : option Z;
  form_guide_scale : option float;
}.

Inductive Request :=
| GET_root
| GET_health
| GET_tasks
| GET_sizes (task : string)
| POST_generate (form : GenerateForm).

(** The handler call FastAPI makes for a form, with the defaults of the
    signature of [generate_video]. *)
Definition post_generate (w : World) (f : GenerateForm) : Handler FileResponse :=
  generate_video w (form_prompt f) (form_image f)
    (or_default (form_task f) MODEL_TYPE)
    (or_default (form_size f) "1280*704")
    (form_frame_num f) (or_default (form_seed f) (-1))
    (form_sample_steps f) (form_guide_scale f).

Definition serve (r : Request) (w : World) (s : State) : Response * State :=
  match r with
  | GET_root => (respond JsonBody (Return root), s)
  | GET_health => (respond JsonBody (Return health_check), s)
  | GET_tasks => (respond JsonBody (Return list_tasks), s)
  | GET_sizes task => (respond JsonBody (list_sizes task), s)
  | POST_generate f =>
      let (o, s') := post_generate w f s in (respond FileBody o, s')
  end.

(** The process after a sequence of requests, each with the world it met. *)
Fixpoint run (rs : list (Request * World)) (s : State) : State :=
  match rs with
  | [] => s
  | (r, w) :: rest => run rest (snd (serve r w s))
  end.

End Service.

(** ** Reading the branch chains

    The same [if "t2v" in task / elif "ti2v" in task / elif "i2v" in task]
    chain selects the model class in [get_model] and the call shape in
    [generate_video]. *)

Definition task_class (task : string) : option ModelClass :=
  if Py.contains "t2v" task then Some WanT2V
  else if Py.contains "ti2v" task then Some WanTI2V
  else if Py.contains "i2v" task then Some WanI2V
  else None.

Definition checkpoint_dir_of `{D : Deployment} (task : string) : string :=
  Py.os_path_join MODEL_PATH ("Wan2.2-" +:+ Py.upper task).

(** The keyword arguments [get_model] gives to the constructor of class [c]. *)
Definition init_args `{D : Deployment} (task : string) (cfg : Config)
    (c : ModelClass) : ModelInit :=
  {| init_config := cfg; init_checkpoint_dir := checkpoint_dir_of task;
     init_device_id := DEVICE_ID; init_rank := 0;
     init_t5_fsdp := false; init_dit_fsdp := false; init_use_sp := false;
     init_t5_cpu := match c with WanTI2V => true | _ => false end;
     init_convert_model_dtype := true |}.

(** The exception a recorded library call met in world [w], if any. *)
Definition raised_by (w : World) (c : Call) : option Exception :=
  match c with
  | CallInit cls a => Foreign <$> wan_init w cls a
  | CallGenerate m a =>
      match wan_generate w m a with
      | Failed f => Some (Foreign f)
      | Ok _ => None
      end
  | CallSave a => Foreign <$> save_video_raises w a
  end.

Definition error_body (detail : string) : Body :=
  JsonBody (JObject [("detail", JString detail)]).

(** The calls recorded between state [s] and a later state [s']. *)
Definition new_calls (s s' : State) : list Call :=
  take (length (calls s') - length (calls s)) (calls s').

(** The task and size a form is handled with. *)
Definition task_of `{D : Deployment} (f : GenerateForm) : string :=
  or_default (form_task f) MODEL_TYPE.

Definition size_of (f : GenerateForm) : string :=
  or_default (form_size f) "1280*704".

(** The call of the [try] block that [post_generate] wraps. *)
Definition post_generate_try `{D : Deployment} (w : World) (f : GenerateForm)
    : Handler FileResponse :=
  generate_video_try w (form_prompt f) (form_image f) (task_of f) (size_of f)
    (form_frame_num f) (or_default (form_seed f) (-1))
    (form_sample_steps f) (form_guide_scale f).

Definition image_required : Exception :=
  HTTPException 400 "Image is required for i2v task".

(** ** A sample deployment

    The three tasks [api.py] and [download_models.py] name, with the default
    size of the form and its transpose. *)

Module Sample.

Definition t2v_A14B : Config :=
  {| cfg_sample_steps := 40; cfg_sample_guide_scale := Scales [3.0; 4.0]%float;
     cfg_frame_num := 81; cfg_sample_shift := 12.0%float; cfg_sample_fps := 16 |}.

Definition i2v_A14B : Config :=
  {| cfg_sample_steps := 40; cfg_sample_guide_scale := Scales [3.5; 3.5]%float;
     cfg_frame_num := 81; cfg_sample_shift := 5.0%float; cfg_sample_fps := 16 |}.

Definition ti2v_5B : Config :=
  {| cfg_sample_steps := 50; cfg_sample_guide_scale := Scale 5.0%float;
     cfg_frame_num := 121; cfg_sample_shift := 5.0%float; cfg_sample_fps := 24 |}.

Definition deployment : Deployment :=
  {| WAN_CONFIGS :=
       [("t2v-A14B", t2v_A14B); ("i2v-A14B", i2v_A14B); ("ti2v-5B", ti2v_5B)];
     SIZE_CONFIGS := [("704*1280", (704, 1280)); ("1280*704", (1280, 704))];
     MAX_AREA_CONFIGS := [("704*1280", 704 * 1280); ("1280*704", 1280 * 704)];
     SUPPORTED_SIZES :=
       [("t2v-A14B", ["704*1280"; "1280*704"]);
        ("i2v-A14B", ["704*1280"; "1280*704"]);
        ("ti2v-5B", ["704*1280"; "1280*704"])];
     MODEL_TYPE := "ti2v-5B";
     MODEL_PATH := "./models";
     DEVICE_ID := 0;
     OUTPUT_DIR := ["/"; "tmp"; "outputs"] |}.

Definition clip : Tensor :=
  {| shape := [3; 1; 2; 2];
     data := [0.5; -0.5; 0; 1; 0.25; 0; -1; 0; 0; 0.75; 0; 0]%float |}.

Definition photo : RGBImage :=
  {| width := 1; height := 1; pixels := [(255, 128, 0)] |}.

(** Every checkpoint is on disk and every library call succeeds. *)
Definition ready : World :=
  {| os_path_exists := fun _ => true;
     wan_init := fun _ _ => None;
     Image_open_convert := fun _ => Ok photo;
     random_randint := fun lo _ => lo + 42;
     wan_generate := fun _ _ => Ok clip;
     uuid_uuid4 := "1b9d6bcd-bbfd-4b2d-9b5d-ab8dfbbd4bed";
     save_video_raises := fun _ => None;
     cuda_empty_cache_raises := None |}.

(** No checkpoint has been downloaded. *)
Definition no_checkpoints : World :=
  {| os_path_exists := fun _ => false;
     wan_init := wan_init ready;
     Image_open_convert := Image_open_convert ready;
     random_randint := random_randint ready;
     wan_generate := wan_generate ready;
     uuid_uuid4 := uuid_uuid4 ready;
     save_video_raises := save_video_raises ready;
     cuda_empty_cache_raises := None |}.

(** The library runs out of memory while sampling. *)
Definition out_of_memory : World :=
  {| os_path_exists := os_path_exists ready;
     wan_init := wan_init ready;
     Image_open_convert := Image_open_convert ready;
     random_randint := random_randint ready;
     wan_generate :=
       fun _ _ =>
         Failed {| failure_class := "torch.OutOfMemoryError";
                   failure_message := "CUDA out of memory" |};
     uuid_uuid4 := uuid_uuid4 ready;
     save_video_raises := save_video_raises ready;
     cuda_empty_cache_raises := None |}.

Definition form (task : string) (image : option UploadFile) : GenerateForm :=
  {| form_prompt := "a red kite over the sea"; form_image := image;
     form_task := Some task; form_size := None; form_frame_num := None;
     form_seed := None; form_sample_steps := None; form_guide_scale := None |}.

(** A form that asks for 30 sampling steps and leaves the rest out. *)
Definition quick_form : GenerateForm :=
  {| form_prompt := "a red kite over the sea"; form_image := None;
     form_task := Some "ti2v-5B"; form_size := None; form_frame_num := None;
     form_seed := None; form_sample_steps := Some 30;
     form_guide_scale := None |}.

Definition bad_size_form : GenerateForm :=
  {| form_prompt := "a red kite over the sea"; form_image := None;
     form_task := Some "ti2v-5B"; form_size := Some "640*480";
     form_frame_num := None; form_seed := None; form_sample_steps := None;
     form_guide_scale := None |}.

(** The first model object of the process, built for ti2v-5B. *)
Definition ti2v_model : Model :=
  {| handle := 0;
     model_class := WanTI2V;
     model_init :=
       {| init_config := ti2v_5B;
          init_checkpoint_dir := "./models/Wan2.2-TI2V-5B";
          init_device_id := 0; init_rank := 0; init_t5_fsdp := false;
          init_dit_fsdp := false; init_use_sp := false; init_t5_cpu := true;
          init_convert_model_dtype := true |} |}.

Definition ti2v_args (steps : Z) : GenerateArgs :=
  {| g_prompt := "a red kite over the sea"; g_img := Some None;
     g_size := Some (1280, 704); g_max_area := Some 901120;
     g_frame_num := 121; g_shift := 5.0%float; g_sample_solver := "unipc";
     g_sampling_steps := steps; g_guide_scale := Scale 5.0%float;
     g_seed := 42; g_offload_model := true |}.

Definition out_of_memory_error : Failure :=
  {| failure_class := "torch.OutOfMemoryError";
     failure_message := "CUDA out of memory" |}.

Definition saved_file : string :=
  "/tmp/outputs/1b9d6bcd-bbfd-4b2d-9b5d-ab8dfbbd4bed.mp4".

End Sample.

(** ** The ways a call of [get_model] ends *)

Section Loading.

Context `{D : Deployment}.

Inductive loaded (w : World) (task : string) (s : State) :
    Outcome Model -> State -> Prop :=
| loaded_hit m :
    _model_cache s !! task = Some m ->
    loaded w task s (Return m) s
| loaded_unsupported :
    _model_cache s !! task = None ->
    Dict.get WAN_CONFIGS task = None ->
    loaded w task s (Raise (ValueError ("Unsupported task: " +:+ task))) s
| loaded_no_checkpoint cfg :
    _model_cache s !! task = None ->
    Dict.get WAN_CONFIGS task = Some cfg ->
    os_path_exists w (checkpoint_dir_of task) = false ->
    loaded w task s
      (Raise (FileNotFoundError
                ("Model checkpoint not found at " +:+ checkpoint_dir_of task))) s
| loaded_no_class cfg :
    _model_cache s !! task = None ->
    Dict.get WAN_CONFIGS task = Some cfg ->
    os_path_exists w (checkpoint_dir_of task) = true ->
    task_class task = None ->
    loaded w task s (Raise (ValueError ("Unsupported task type: " +:+ task))) s
| loaded_init_raised cfg c f :
    _model_cache s !! task = None ->
    Dict.get WAN_CONFIGS task = Some cfg ->
    os_path_exists w (checkpoint_dir_of task) = true ->
    task_class task = Some c ->
    wan_init w c (init_args task cfg c) = Some f ->
    loaded w task s (Raise (Foreign f))
      (logged (CallInit c (init_args task cfg c)) s)
| loaded_miss cfg c m :
    _model_cache s !! task = None ->
    Dict.get WAN_CONFIGS task = Some cfg ->
    os_path_exists w (checkpoint_dir_of task) = true ->
    task_class task = Some c ->
    wan_init w c (init_args task cfg c) = None ->
    m = {| handle := constructed s; model_class := c;
           model_init := init_args task cfg c |} ->
    loaded w task s (Return m)
      (cached task m (counted (logged (CallInit c (init_args task cfg c)) s))).

End Loading.

(** ** Cache entries that stand for a model really built

    [well_loaded ws s task m]: the cached [m] is the object a constructor
    returned, in one of the worlds [ws], for the configuration of [task]. *)

Definition well_loaded `{D : Deployment} (ws : list World) (s : State)
    (task : string) (m : Model) : Prop :=
  exists cfg c w,
    Dict.get WAN_CONFIGS task = Some cfg /\
    task_class task = Some c /\
    model_class m = c /\
    model_init m = init_args task cfg c /\
    (handle m < constructed s)%nat /\
    w ∈ ws /\
    wan_init w c (init_args task cfg c) = None /\
    CallInit c (init_args task cfg c) ∈ calls s.

Definition sound `{D : Deployment} (ws : list World) (s : State) : Prop :=
  forall task m, _model_cache s !! task = Some m -> well_loaded ws s task m.

(** ** Reading a response *)

(** Every uploaded image of the form can be opened. *)
Definition image_decodes (w : World) (f : GenerateForm) : bool :=
  match form_image f with
  | Some upload =>
      match Image_open_convert w (up_content upload) with
      | Ok _ => true
      | Failed _ => false
      end
  | None => true
  end.

(** The response is a 500 whose JSON detail contains [str(e)]. *)
Definition reports (r : Response) (e : Exception) : Prop :=
  status r = 500 /\
  exists detail, body r = error_body detail /\ Py.contains (str e) detail = true.

(** ** Reading a generation request *)

(** The seed a form is handled with, and the file its video goes to. *)
Definition seed_of (f : GenerateForm) : Z := or_default (form_seed f) (-1).

Definition output_path_of `{D : Deployment} (w : World) : Py.Path :=
  Py.div OUTPUT_DIR (uuid_uuid4 w +:+ ".mp4").

(** The calls one request may record, latest first: at most one
    constructor call, then at most one [generate], then at most one
    [save_video]. *)
Definition in_call_order (l : list Call) : bool :=
  match l with
  | [] => true
  | [CallInit _ _] => true
  | [CallGenerate _ _] => true
  | [CallGenerate _ _; CallInit _ _] => true
  | [CallSave _; CallGenerate _ _] => true
  | [CallSave _; CallGenerate _ _; CallInit _ _] => true
  | _ => false
  end.

(** The image of the form once opened, [None] when the form has none. *)
Definition decoded_image (w : World) (f : GenerateForm) : option RGBImage :=
  match form_image f with
  | Some upload =>
      match Image_open_convert w (up_content upload) with
      | Ok picture => Some picture
      | Failed _ => None
      end
  | None => None
  end.

(** ** Bookkeeping of the cache

    [tidy s]: the cache holds as many entries as models were constructed,
    every cached model was counted, and two tasks never share an object. *)
Definition tidy (s : State) : Prop :=
  size (_model_cache s) = constructed s /\
  (forall t m, _model_cache s !! t = Some m -> (handle m < constructed s)%nat) /\
  (forall t1 t2 m1 m2,
      _model_cache s !! t1 = Some m1 -> _model_cache s !! t2 = Some m2 ->
      handle m1 = handle m2 -> t1 = t2).

(** ** [pathlib] on POSIX: from a string to a path and back *)

Module Pathlib.

(** [s.split("/")] *)
Fixpoint segments (s : string) : list string :=
  match s with
  | EmptyString => [EmptyString]
  | String c s' =>
      if bool_decide (c = "/"%char) then EmptyString :: segments s'
      else
        match segments s' with
        | x :: rest => String c x :: rest
        | [] => [String c EmptyString]
        end
  end.

(** [p[:1] == "/"] *)
Definition starts_sep (p : string) : bool :=
  match p with
  | String c _ => bool_decide (c = "/"%char)
  | EmptyString => false
  end.

(** [p[1:]] *)
Definition rest (p : string) : string :=
  match p with
  | String _ r => r
  | EmptyString => EmptyString
  end.

(** [posixpath.splitroot], without the drive, which is always empty: one
    leading slash is the root, exactly two are a root of their own, three
    or more count as one. *)
Definition splitroot (p : string) : string * string :=
  if negb (starts_sep p) then ("", p)
  else if negb (starts_sep (rest p)) || starts_sep (rest (rest p))
       then ("/", rest p)
  else ("//", rest (rest p)).

Definition kept (x : string) : bool :=
  negb (bool_decide (x = "")) && negb (bool_decide (x = ".")).

(** The parts after the root: the segments that are neither empty nor
    [.]. *)
Definition tail (rel : string) : list string := List.filter kept (segments rel).

(** [Path(p).parts] *)
Definition parse (p : string) : Py.Path :=
  let (root, rel) := splitroot p in
  if bool_decide (root = "") then tail rel else root :: tail rel.

(** [str(path)] *)
Definition render (p : Py.Path) : string :=
  match p with
  | [] => "."
  | first :: others =>
      if bool_decide (first = "/") || bool_decide (first = "//")
      then first +:+ Py.join_parts others
      else Py.join_parts p
  end.

(** A name that [/] appends as one part. *)
Definition one_part (name : string) : bool :=
  bool_decide (segments name = [name]) && kept name.

(** The paths [parse] and [/] produce: an optional root, then one-part
    names. *)
Definition well_formed (p : Py.Path) : bool :=
  match p with
  | [] => true
  | first :: others =>
      (bool_decide (first = "/") || bool_decide (first = "//")
       || one_part first)
      && forallb one_part others
  end.

End Pathlib.

(** ** The download script ([download_models.py]) *)

Module Download.

Definition MODELS : Dict.t string :=
  [("ti2v-5B", "Wan2.2-TI2V-5B");
   ("t2v-A14B", "Wan2.2-T2V-A14B");
   ("i2v-A14B", "Wan2.2-I2V-A14B")].

(** Keyword arguments of [snapshot_download]. *)
Record SnapshotArgs := {
  repo_id : string;
  local_dir : string;
  local_dir_use_symlinks : bool;
  resume_download : bool;
}.

(** What the disk and the hub answer during one run. *)
Record Hub := {
  path_exists : Py.Path -> bool;
  snapshot_download_raises : SnapshotArgs -> option Failure;
}.

(** How a run ends: the function returns, [sys.exit(code)], or an exception
    nobody catches. *)
Inductive Ending :=
| Returns
| Exits (code : Z)
| Uncaught (e : Exception).

(** A run: how it ended, the lines printed and the downloads asked for, both
    in order. *)
Record Run := {
  ending : Ending;
  stdout : list string;
  downloads : list SnapshotArgs;
}.

(** [Path(output_dir) / model_name], for the one-part names of [MODELS]. *)
Definition model_path_of (output_dir model_name : string) : Py.Path :=
  Py.div (Pathlib.parse output_dir) model_name.

Definition download_model (h : Hub) (model_type output_dir : string) : Run :=
  if negb (Dict.mem model_type MODELS) then
    {| ending := Exits 1;
       stdout := ["Error: Unknown model type " +:+ model_type];
       downloads := [] |}
  else
    match Dict.get MODELS model_type with
    | None =>
        {| ending := Uncaught (KeyError model_type); stdout := [];
           downloads := [] |}
    | Some model_name =>
        let model_path := model_path_of output_dir model_name in
        if path_exists h model_path then
          {| ending := Returns;
             stdout := ["Model " +:+ model_name +:+ " already exists at " +:+
                        Pathlib.render model_path];
             downloads := [] |}
        else
          let downloading :=
            "Downloading " +:+ model_name +:+ " to " +:+
            Pathlib.render model_path +:+ "..." in
          let repo := "Alibaba-PAI/" +:+ model_name in
          let args :=
            {| repo_id := repo; local_dir := Pathlib.render model_path;
               local_dir_use_symlinks := false; resume_download := true |} in
          match snapshot_download_raises h args with
          | None =>
              {| ending := Returns;
                 stdout := [downloading;
                            "Successfully downloaded " +:+ model_name];
                 downloads := [args] |}
          | Some fl =>
              {| ending := Exits 1;
                 stdout := [downloading;
                            "Error downloading model: " +:+ failure_message fl;
                            "Please ensure the model is available at: " +:+ repo];
                 downloads := [args] |}
          end
    end.

(** [os.getenv(name, default)] *)
Definition getenv (env : gmap string string) (name default : string) : string :=
  match env !! name with
  | Some v => v
  | None => default
  end.

(** The script run as a program; a [sys.exit] inside [download_model] ends
    it before the last line is printed. *)
Definition main (h : Hub) (env : gmap string string) : Run :=
  let model_type := getenv env "MODEL_TYPE" "ti2v-5B" in
  let output_dir := getenv env "MODEL_PATH" "/app/models" in
  let r := download_model h model_type output_dir in
  {| ending := ending r;
     stdout :=
       ("Starting model download for: " +:+ model_type) :: stdout r ++
       match ending r with
       | Returns => ["Model download complete!"]
       | _ => []
       end;
     downloads := downloads r |}.

End Download.

(** ** The smoke test ([test_api.py]) *)

Module Smoke.

(** What [requests.get] returns: the status code and what [.json()] gives. *)
Record Reply := {
  status_code : Z;
  json : Answer Json;
}.

(** [requests.get(url)]: a reply, or an exception such as a refused
    connection. *)
Definition Client := string -> Answer Reply.

(** A printed line; the line that shows a decoded body keeps the body. *)
Inductive Line :=
| Text (s : string)
| ResponseOf (j : Json).

(** The verdict so far, the URLs requested and the lines printed, in
    order. *)
Record Report := {
  passed : bool;
  requested : list string;
  printed : list Line;
}.

Definition newline : string := String "010"%char EmptyString.

(** ["=" * 60] *)
Definition rule : string := String.concat "" (repeat "=" 60%nat).

(** One [try] block of [test_api]: the heading, the request, and the lines
    for a 200, for another status, and for an exception, which [.json()]
    may raise as well once the first line is out. *)
Definition probe (get : Client) (heading url label : string) : Report :=
  match get url with
  | Failed fl =>
      {| passed := false; requested := [url];
         printed := [Text heading;
                     Text ("✗ " +:+ label +:+ " error: " +:+
                           failure_message fl)] |}
  | Ok response =>
      if status_code response =? 200 then
        match json response with
        | Ok j =>
            {| passed := true; requested := [url];
               printed := [Text heading;
                           Text ("✓ " +:+ label +:+ " working");
                           ResponseOf j] |}
        | Failed fl =>
            {| passed := false; requested := [url];
               printed := [Text heading;
                           Text ("✓ " +:+ label +:+ " working");
                           Text ("✗ " +:+ label +:+ " error: " +:+
                                 failure_message fl)] |}
        end
      else
        {| passed := false; requested := [url];
           printed := [Text heading;
                       Text ("✗ " +:+ label +:+ " failed with status " +:+
                             pretty (status_code response))] |}
  end.

(** What follows a block when it did not [return False]. *)
Definition and_then (r next : Report) : Report :=
  if passed r then
    {| passed := passed next;
       requested := requested r ++ requested next;
       printed := printed r ++ printed next |}
  else r.

Definition test_api (get : Client) (base_url : string) : Report :=
  and_then
    {| passed := true; requested := [];
       printed := [Text ("Testing API at: " +:+ base_url); Text rule] |}
    (and_then
       (probe get (newline +:+ "1. Testing root endpoint (GET /)...")
          (base_url +:+ "/") "Root endpoint")
    (and_then
       (probe get (newline +:+ "2. Testing health endpoint (GET /health)...")
          (base_url +:+ "/health") "Health endpoint")
    (and_then
       (probe get (newline +:+ "3. Testing tasks endpoint (GET /tasks)...")
          (base_url +:+ "/tasks") "Tasks endpoint")
    (and_then
       (probe get
          (newline +:+ "4. Testing sizes endpoint (GET /sizes/ti2v-5B)...")
          (base_url +:+ "/sizes/ti2v-5B") "Sizes endpoint")
       {| passed := true; requested := [];
          printed :=
            [Text (newline +:+ rule);
             Text "✓ All basic API tests passed!";
             Text (newline +:+
                   "Note: Generation endpoint not tested (requires model)");
             Text rule] |})))).

(** The script run as a program: the exit status. *)
Definition main (get : Client) (argv : list string) : Z :=
  let base_url :=
    match argv with
    | _ :: url :: _ => url
    | _ => "http://localhost:8000"
    end in
  if passed (test_api get base_url) then 0 else 1.

(** The four URLs of the test, in the order they are tried. *)
Definition urls (base_url : string) : list string :=
  [base_url +:+ "/"; base_url +:+ "/health"; base_url +:+ "/tasks";
   base_url +:+ "/sizes/ti2v-5B"].

(** A URL answers 200 with a body that decodes as JSON. *)
Definition healthy (get : Client) (url : string) : bool :=
  match get url with
  | Ok response =>
      (status_code response =? 200) &&
      match json response with
      | Ok _ => true
      | Failed _ => false
      end
  | Failed _ => false
  end.

(** The URLs up to and including the first one that is not healthy. *)
Fixpoint until_first_failure (get : Client) (l : list string) : list string :=
  match l with
  | [] => []
  | url :: others =>
      url :: (if healthy get url then until_first_failure get others else [])
  end.

(** [get url] brings back the response [r] of the service. *)
Definition answers_as (get : Client) (url : string) (r : Response) : Prop :=
  exists reply,
    get url = Ok reply /\
    status_code reply = status r /\
    forall j, body r = JsonBody j -> json reply = Ok j.

End Smoke.

(** ** More sample requests, worlds and runs *)

Module Cases.

Definition kite_upload : UploadFile :=
  {| up_filename := "kite.png"; up_content := "not really a PNG" |}.

Definition seeded_form : GenerateForm :=
  {| form_prompt := "a red kite over the sea"; form_image := None;
     form_task := Some "ti2v-5B"; form_size := None; form_frame_num := None;
     form_seed := Some 7; form_sample_steps := None;
     form_guide_scale := None |}.

Definition seeded_args : GenerateArgs :=
  {| g_prompt := "a red kite over the sea"; g_img := Some None;
     g_size := Some (1280, 704); g_max_area := Some 901120;
     g_frame_num := 121; g_shift := 5.0%float; g_sample_solver := "unipc";
     g_sampling_steps := 50; g_guide_scale := Scale 5.0%float;
     g_seed := 7; g_offload_model := true |}.

Definition t2v_model : Model :=
  {| handle := 0;
     model_class := WanT2V;
     model_init :=
       {| init_config := Sample.t2v_A14B;
          init_checkpoint_dir := "./models/Wan2.2-T2V-A14B";
          init_device_id := 0; init_rank := 0; init_t5_fsdp := false;
          init_dit_fsdp := false; init_use_sp := false; init_t5_cpu := false;
          init_convert_model_dtype := true |} |}.

Definition t2v_args : GenerateArgs :=
  {| g_prompt := "a red kite over the sea"; g_img := None;
     g_size := Some (1280, 704); g_max_area := None;
     g_frame_num := 81; g_shift := 12.0%float; g_sample_solver := "unipc";
     g_sampling_steps := 40; g_guide_scale := Scales [3.0; 4.0]%float;
     g_seed := 42; g_offload_model := true |}.

Definition i2v_model : Model :=
  {| handle := 0;
     model_class := WanI2V;
     model_init :=
       {| init_config := Sample.i2v_A14B;
          init_checkpoint_dir := "./models/Wan2.2-I2V-A14B";
          init_device_id := 0; init_rank := 0; init_t5_fsdp := false;
          init_dit_fsdp := false; init_use_sp := false; init_t5_cpu := false;
          init_convert_model_dtype := true |} |}.

Definition unreadable_error : Failure :=
  {| failure_class := "PIL.UnidentifiedImageError";
     failure_message := "cannot identify image file" |}.

(** PIL cannot open what was uploaded. *)
Definition unreadable : World :=
  {| os_path_exists := os_path_exists Sample.ready;
     wan_init := wan_init Sample.ready;
     Image_open_convert := fun _ => Failed unreadable_error;
     random_randint := random_randint Sample.ready;
     wan_generate := wan_generate Sample.ready;
     uuid_uuid4 := uuid_uuid4 Sample.ready;
     save_video_raises := save_video_raises Sample.ready;
     cuda_empty_cache_raises := None |}.

Definition flush_error : Failure :=
  {| failure_class := "RuntimeError";
     failure_message := "CUDA error: unspecified launch failure" |}.

(** Everything works until [torch.cuda.empty_cache()]. *)
Definition flush_fails : World :=
  {| os_path_exists := os_path_exists Sample.ready;
     wan_init := wan_init Sample.ready;
     Image_open_convert := Image_open_convert Sample.ready;
     random_randint := random_randint Sample.ready;
     wan_generate := wan_generate Sample.ready;
     uuid_uuid4 := uuid_uuid4 Sample.ready;
     save_video_raises := save_video_raises Sample.ready;
     cuda_empty_cache_raises := Some flush_error |}.

Definition saved : SaveArgs :=
  {| sv_tensor := index_None Sample.clip; sv_save_file := Sample.saved_file;
     sv_fps := 24; sv_nrow := 1; sv_normalize := true;
     sv_value_range := (-1, 1) |}.

(** A deployment whose [SIZE_CONFIGS] has a size that [MAX_AREA_CONFIGS]
    lacks. *)
Definition lopsided : Deployment :=
  {| WAN_CONFIGS := WAN_CONFIGS (Deployment := Sample.deployment);
     SIZE_CONFIGS := [("1280*704", (1280, 704)); ("832*480", (832, 480))];
     MAX_AREA_CONFIGS := [("1280*704", 1280 * 704)];
     SUPPORTED_SIZES := [("t2v-A14B", ["1280*704"; "832*480"])];
     MODEL_TYPE := "ti2v-5B";
     MODEL_PATH := "./models";
     DEVICE_ID := 0;
     OUTPUT_DIR := ["/"; "tmp"; "outputs"] |}.

Definition small_form : GenerateForm :=
  {| form_prompt := "a red kite over the sea"; form_image := None;
     form_task := Some "ti2v-5B"; form_size := Some "832*480";
     form_frame_num := None; form_seed := None; form_sample_steps := None;
     form_guide_scale := None |}.



(** The models are on disk already. *)
Definition stocked_hub : Download.Hub :=
  {| Download.path_exists := fun _ => true;
     Download.snapshot_download_raises := fun _ => None |}.


(** What a client reads from a response of the service. *)
Definition reply_of (r : Response) : Smoke.Reply :=
  {| Smoke.status_code := status r;
     Smoke.json :=
       match body r with
       | JsonBody j => Ok j
       | _ => Failed {| failure_class := "JSONDecodeError";
                        failure_message := "Expecting value" |}
       end |}.

(** A client connected to the service in state [s]; any other URL is
    refused. *)
Definition client `{D : Deployment} (base_url : string) (w : World) (s : State)
    : Smoke.Client :=
  fun url =>
    if bool_decide (url = base_url +:+ "/") then
      Ok (reply_of (fst (serve GET_root w s)))
    else if bool_decide (url = base_url +:+ "/health") then
      Ok (reply_of (fst (serve GET_health w s)))
    else if bool_decide (url = base_url +:+ "/tasks") then
      Ok (reply_of (fst (serve GET_tasks w s)))
    else if bool_decide (url = base_url +:+ "/sizes/ti2v-5B") then
      Ok (reply_of (fst (serve (GET_sizes "ti2v-5B") w s)))
    else
      Failed {| failure_class := "ConnectionError";
                failure_message := "connection refused" |}.

End Cases.

(** * Properties *)

Section Facts.

Context `{D : Deployment}.

Ltac unfold_handler :=
  unfold get_model, construct, cache_mem, cache_store, cache_subscript,
    save_video, generate, empty_cache, log, subscript, when_raise, lift,
    lift_raises, try_except, bind, raise, ret in *.

Lemma get_model_loaded w task s :
  loaded w task s (fst (get_model w task s)) (snd (get_model w task s)).
Proof.
  destruct (_model_cache s !! task) as [m|] eqn:Hc.
  - unfold_handler. simpl. rewrite Hc.
    rewrite bool_decide_true by eauto. simpl. rewrite Hc. simpl.
    by constructor.
  - unfold_handler. simpl. rewrite Hc.
    rewrite bool_decide_false by (intros [? ?]; congruence). simpl.
    unfold Dict.mem.
    destruct (Dict.get WAN_CONFIGS task) as [cfg|] eqn:Hcfg; simpl;
      [|by constructor].
    fold (checkpoint_dir_of task).
    destruct (os_path_exists w (checkpoint_dir_of task)) eqn:Hex; simpl;
      [|by econstructor].
    destruct (task_class task) as [c|] eqn:Hcls; unfold task_class in Hcls.
    + destruct (Py.contains "t2v" task) eqn:H1;
        [|destruct (Py.contains "ti2v" task) eqn:H2;
          [|destruct (Py.contains "i2v" task) eqn:H3; [|done]]];
        injection Hcls as <-; simpl.
      all: match goal with
           | |- context [wan_init _ ?c ?a] =>
               change a with (init_args task cfg c);
               destruct (wan_init w c (init_args task cfg c)) eqn:Hi; simpl
           end.
      all: try (eapply loaded_init_raised; eauto; unfold task_class;
                rewrite ?H1, ?H2, ?H3; done).
      all: rewrite lookup_insert_eq; simpl.
      all: eapply loaded_miss; eauto; unfold task_class;
           rewrite ?H1, ?H2, ?H3; done.
    + destruct (Py.contains "t2v" task) eqn:H1; [done|].
      destruct (Py.contains "ti2v" task) eqn:H2; [done|].
      destruct (Py.contains "i2v" task) eqn:H3; [done|]. simpl.
      eapply loaded_no_class; eauto. unfold task_class.
      by rewrite H1, H2, H3.
Qed.

(** Symbolic execution of a handler applied to a state, in evaluation
    order: the goal is [run = (o, s') -> _]; the term that blocks [run] is
    found and split, a call of [get_model] by the way it ended. *)
Ltac unfold_step :=
  unfold construct, cache_mem, cache_store, cache_subscript,
    save_video, generate, empty_cache, log, subscript, when_raise, lift,
    lift_raises, try_except, bind, raise, ret in *.

Ltac blocker t :=
  lazymatch t with
  | match ?x with _ => _ end => blocker x
  | negb ?x => blocker x
  | ?f ?a =>
      let r := blocker f in
      lazymatch r with
      | f => constr:(t)
      | _ => constr:(r)
      end
  | _ => constr:(t)
  end.

Ltac exec_step :=
  lazymatch goal with
  | |- ?t = _ -> _ =>
      let b := blocker t in
      lazymatch b with
      | (_, _) => fail
      | get_model ?w ?task ?s =>
          let HL := fresh "HL" in
          pose proof (get_model_loaded w task s) as HL;
          destruct (get_model w task s) as [? ?]; simpl in HL;
          inversion HL; subst; clear HL; simpl
      | _ => destruct b eqn:?; simpl
      end
  end.

Ltac exec := simpl; repeat exec_step; intros [= <- <-]; simpl.

(** *** Strings, paths and the call record *)

Lemma prefix_app (a b : string) : String.prefix a (a +:+ b) = true.
Proof.
  induction a as [|c a IH].
  - by destruct b.
  - change (String c a +:+ b) with (String c (a +:+ b)). simpl.
    destruct (ascii_dec c c); [exact IH | congruence].
Qed.

Lemma contains_prefix (sub s : string) :
  String.prefix sub s = true -> Py.contains sub s = true.
Proof. intros H. destruct s; unfold Py.contains; rewrite H; done. Qed.

Lemma contains_app (sub pre post : string) :
  Py.contains sub (pre +:+ sub +:+ post) = true.
Proof.
  induction pre as [|c pre IH].
  - change ("" +:+ sub +:+ post) with (sub +:+ post).
    apply contains_prefix, prefix_app.
  - change (String c pre +:+ sub +:+ post)
      with (String c (pre +:+ sub +:+ post)).
    simpl. rewrite IH. apply orb_true_r.
Qed.

Lemma contains_suffix (sub pre : string) : Py.contains sub (pre +:+ sub) = true.
Proof.
  pose proof (contains_app sub pre "") as H.
  assert (E : sub +:+ "" = sub).
  { clear. induction sub as [|c sub IH]; [done|].
    change (String c sub +:+ "") with (String c (sub +:+ "")).
    by rewrite IH. }
  by rewrite E in H.
Qed.

Lemma name_div (p : Py.Path) (n : string) : Py.name (Py.div p n) = n.
Proof. unfold Py.name, Py.div. apply last_last. Qed.

Lemma parent_div (p : Py.Path) (n : string) : Py.parent (Py.div p n) = p.
Proof. unfold Py.parent, Py.div. apply removelast_last. Qed.

Lemma new_calls_app (l : list Call) (s s' : State) :
  calls s' = l ++ calls s -> new_calls s s' = l.
Proof.
  intros E. unfold new_calls. rewrite E, length_app.
  replace (length l + length (calls s) - length (calls s))%nat
    with (length l) by lia.
  by rewrite take_app_length.
Qed.

Lemma new_calls_same (s : State) : new_calls s s = [].
Proof. by apply (new_calls_app []). Qed.

(** *** Metadata endpoints *)

(** C6: [GET /health], [GET /] and [GET /tasks] answer 200 whatever the
    state of the process.  The health body is exactly
    [{"status": "healthy"}]; the root body has exactly the keys [status],
    [message], [model_type], [available_tasks]; the tasks body has exactly
    the keys [available_tasks], [current_task]; and [available_tasks] is in
    both the key list of [WAN_CONFIGS]. *)
Theorem metadata_endpoints_fixed_shape (w : World) (s : State) :
  serve GET_health w s =
    ({| status := 200;
        body := JsonBody (JObject [("status", JString "healthy")]) |}, s) /\
  (exists j,
      serve GET_root w s = ({| status := 200; body := JsonBody j |}, s) /\
      field_names j = ["status"; "message"; "model_type"; "available_tasks"] /\
      field j "available_tasks" = Some (json_strings (Dict.keys WAN_CONFIGS))) /\
  (exists j,
      serve GET_tasks w s = ({| status := 200; body := JsonBody j |}, s) /\
      field_names j = ["available_tasks"; "current_task"] /\
      field j "available_tasks" = Some (json_strings (Dict.keys WAN_CONFIGS))).
Proof.
  split; [reflexivity|].
  split; eexists; (split; [reflexivity|]); split; reflexivity.
Qed.

Lemma mem_get {V} (k : string) (d : Dict.t V) :
  Dict.mem k d = true <-> is_Some (Dict.get d k).
Proof.
  unfold Dict.mem. destruct (Dict.get d k); split; intros H; eauto;
    [discriminate | by destruct H].
Qed.

Lemma mem_keys {V} (k : string) (d : Dict.t V) :
  Dict.mem k d = true <-> k ∈ Dict.keys d.
Proof.
  rewrite mem_get. unfold Dict.keys.
  induction d as [|[k' v] d IH]; simpl.
  - split; [by intros [? ?] | by intros ?%elem_of_nil].
  - rewrite elem_of_cons. case_bool_decide; subst.
    + split; eauto.
    + rewrite IH. split; [tauto | intros [?|?]; [congruence | done]].
Qed.

(** C4: [GET /sizes/{task}] answers 400 with a JSON error when [task] is not
    a key of [SUPPORTED_SIZES]; when it is a key the answer is 200 and its
    JSON body has exactly the fields [task], holding the requested task, and
    [supported_sizes], holding the sizes configured for that task. *)
Theorem sizes_endpoint (w : World) (s : State) (task : string) :
  (Dict.mem task SUPPORTED_SIZES = false ->
   serve (GET_sizes task) w s =
     ({| status := 400; body := error_body ("Unknown task: " +:+ task) |}, s)) /\
  (forall sizes, Dict.get SUPPORTED_SIZES task = Some sizes ->
   Dict.mem task SUPPORTED_SIZES = true /\
   exists j,
     serve (GET_sizes task) w s = ({| status := 200; body := JsonBody j |}, s) /\
     field_names j = ["task"; "supported_sizes"] /\
     field j "task" = Some (JString task) /\
     field j "supported_sizes" = Some (json_strings sizes)).
Proof.
  split.
  - intros Hmem. simpl. unfold list_sizes. by rewrite Hmem.
  - intros sizes Hget.
    assert (Hmem : Dict.mem task SUPPORTED_SIZES = true)
      by (apply mem_get; eauto).
    split; [done|]. simpl. unfold list_sizes. rewrite Hmem, Hget. simpl.
    eexists. split; [reflexivity|]. by repeat split.
Qed.

(** *** The model cache *)

Ltac loaded_cases w task s :=
  let HL := fresh "HL" in
  pose proof (get_model_loaded w task s) as HL;
  destruct (get_model w task s) as [? ?]; simpl in HL;
  inversion HL; subst; clear HL.

Lemma get_model_hit w task s m :
  _model_cache s !! task = Some m -> get_model w task s = (Return m, s).
Proof. intros Hc. loaded_cases w task s; congruence. Qed.

Lemma get_model_raise_keeps_cache w task s e s' :
  get_model w task s = (Raise e, s') -> _model_cache s' = _model_cache s.
Proof.
  intros E. loaded_cases w task s; try discriminate;
    injection E as <- <-; reflexivity.
Qed.

Lemma get_model_miss w task s cfg c :
  _model_cache s !! task = None ->
  Dict.get WAN_CONFIGS task = Some cfg ->
  os_path_exists w (checkpoint_dir_of task) = true ->
  task_class task = Some c ->
  wan_init w c (init_args task cfg c) = None ->
  let m := {| handle := constructed s; model_class := c;
              model_init := init_args task cfg c |} in
  get_model w task s =
    (Return m, cached task m (counted (logged (CallInit c (init_args task cfg c)) s))).
Proof.
  intros Hc Hcfg Hex Hcls Hinit. loaded_cases w task s; try congruence.
  replace cfg0 with cfg in * by congruence.
  replace c0 with c in * by congruence. reflexivity.
Qed.

(** One call of [get_model] only adds to the process state. *)
Lemma get_model_extends w task s :
  let s' := snd (get_model w task s) in
  (forall t m, _model_cache s !! t = Some m -> _model_cache s' !! t = Some m) /\
  files s' = files s /\
  (constructed s <= constructed s')%nat /\
  (forall c, c ∈ calls s -> c ∈ calls s').
Proof.
  loaded_cases w task s; simpl; repeat split; auto; try set_solver.
  intros t m' Ht. destruct (decide (task = t)) as [->|Hne]; [congruence|].
  by rewrite lookup_insert_ne.
Qed.

Lemma get_model_sound ws w task s :
  sound ws s -> sound (w :: ws) (snd (get_model w task s)).
Proof.
  intros Hs.
  assert (Hold : forall s', _model_cache s' = _model_cache s ->
             (constructed s <= constructed s')%nat ->
             (forall c, c ∈ calls s -> c ∈ calls s') -> sound (w :: ws) s').
  { intros s' Hc Hn Hl t m Ht. rewrite Hc in Ht.
    destruct (Hs t m Ht) as (cfg & c & w0 & ? & ? & ? & ? & ? & ? & ? & ?).
    exists cfg, c, w0. repeat split; auto; solve [lia | set_solver]. }
  loaded_cases w task s; simpl; try (apply Hold; simpl; auto; set_solver).
  intros t m' Ht. simpl in Ht. rewrite lookup_insert in Ht.
  case_decide as Heq.
  - subst t. injection Ht as <-. exists cfg, c, w. simpl.
    repeat split; auto; solve [lia | set_solver].
  - destruct (Hs t m' Ht) as (cfg' & c' & w0 & ? & ? & ? & ? & ? & ? & ? & ?).
    exists cfg', c', w0. simpl. repeat split; auto; solve [lia | set_solver].
Qed.

(** *** What a generation request does to the process state *)

(** Around its call of [get_model], a generation request leaves the cache
    and the object count alone, records calls, and writes at most one file. *)
Lemma post_generate_catches w f s :
  post_generate w f s =
    match post_generate_try w f s with
    | (Return fr, s') => (Return fr, s')
    | (Raise e, s') =>
        (Raise (HTTPException 500 ("Video generation failed: " +:+ str e)), s')
    end.
Proof. reflexivity. Qed.

Lemma post_generate_state w f s :
  snd (post_generate w f s) = snd (post_generate_try w f s).
Proof.
  rewrite post_generate_catches.
  by destruct (post_generate_try w f s) as [[?|?] ?].
Qed.

Lemma post_generate_frame w f s :
  let s' := snd (post_generate w f s) in
  let s1 := snd (get_model w (task_of f) s) in
  s' = s \/
  (_model_cache s' = _model_cache s1 /\
   constructed s' = constructed s1 /\
   (exists l, calls s' = l ++ calls s1) /\
   (files s' = files s1 \/ exists p t, files s' = <[p := t]> (files s1))).
Proof.
  rewrite post_generate_state.
  destruct (post_generate_try w f s) as [o s'] eqn:E. revert E.
  unfold post_generate_try, generate_video_try, Dict.mem. unfold_step.
  exec.
  all: first [by left | right].
  all: repeat split; try reflexivity.
  all: try (first [by exists [] | by eexists [_] | by eexists [_; _]]).
  all: first [by left | right; by do 2 eexists].
Qed.

Lemma post_generate_extends w f s :
  let s' := snd (post_generate w f s) in
  (forall t m, _model_cache s !! t = Some m -> _model_cache s' !! t = Some m) /\
  (forall p, is_Some (files s !! p) -> is_Some (files s' !! p)).
Proof.
  intros s'. subst s'.
  destruct (post_generate_frame w f s) as [->|(Hc & _ & _ & Hf)]; [done|].
  destruct (get_model_extends w (task_of f) s) as (Hc1 & Hf1 & _ & _).
  split.
  - intros t m Ht. rewrite Hc. by apply Hc1.
  - intros p Hp. destruct Hf as [-> | (q & t & ->)]; rewrite Hf1; [done|].
    rewrite lookup_insert. case_decide; eauto.
Qed.

Lemma post_generate_sound ws w f s :
  sound ws s -> sound (w :: ws) (snd (post_generate w f s)).
Proof.
  intros Hs.
  destruct (post_generate_frame w f s) as [->|(Hc & Hn & [l Hl] & _)].
  - intros t m Ht.
    destruct (Hs t m Ht) as (cfg & c & w0 & ? & ? & ? & ? & ? & ? & ? & ?).
    exists cfg, c, w0. repeat split; auto; solve [lia | set_solver].
  - intros t m Ht. rewrite Hc in Ht.
    destruct (get_model_sound ws w (task_of f) s Hs t m Ht)
      as (cfg & c & w0 & ? & ? & ? & ? & ? & ? & ? & ?).
    exists cfg, c, w0. rewrite Hn, Hl. repeat split; auto.
    apply elem_of_app; by right.
Qed.

Lemma serve_state r w s :
  snd (serve r w s) =
    match r with
    | POST_generate f => snd (post_generate w f s)
    | _ => s
    end.
Proof.
  destruct r as [| | | |f]; simpl; try reflexivity.
  by destruct (post_generate w f s).
Qed.

Lemma run_keeps_cache rs s t m :
  _model_cache s !! t = Some m -> _model_cache (run rs s) !! t = Some m.
Proof.
  revert s. induction rs as [|[r w] rs IH]; intros s Ht; simpl; [done|].
  apply IH. rewrite serve_state. destruct r; try done.
  by apply post_generate_extends.
Qed.

Lemma run_keeps_files rs s p :
  is_Some (files s !! p) -> is_Some (files (run rs s) !! p).
Proof.
  revert s. induction rs as [|[r w] rs IH]; intros s Hp; simpl; [done|].
  apply IH. rewrite serve_state. destruct r; try done.
  by apply post_generate_extends.
Qed.

Lemma sound_more ws ws' s :
  sound ws s -> (forall w, w ∈ ws -> w ∈ ws') -> sound ws' s.
Proof.
  intros Hs Hsub t m Ht.
  destruct (Hs t m Ht) as (cfg & c & w0 & ? & ? & ? & ? & ? & ? & ? & ?).
  exists cfg, c, w0. repeat split; auto.
Qed.

Lemma run_sound rs ws s : sound ws s -> sound (rs.*2 ++ ws) (run rs s).
Proof.
  revert ws s. induction rs as [|[r w] rs IH]; intros ws s Hs; simpl; [done|].
  apply (sound_more (rs.*2 ++ w :: ws)).
  - apply IH. rewrite serve_state.
    destruct r; try (apply (sound_more ws); [exact Hs | intros; by right]).
    by apply post_generate_sound.
  - intros w0. rewrite elem_of_cons, !elem_of_app, elem_of_cons. tauto.
Qed.

Lemma initial_sound : sound [] initial.
Proof. intros t m Ht. simpl in Ht. by rewrite lookup_empty in Ht. Qed.

(** C9: a call of [get_model] that raises leaves the cache as it was; and
    in every state the process reaches from its start, a key of the cache is
    a key of [WAN_CONFIGS] and maps to the object a constructor call
    returned, for that task's class and configuration, in one of the
    requests served so far. *)
Theorem failed_load_keeps_cache :
  (forall w task s e s',
      get_model w task s = (Raise e, s') -> _model_cache s' = _model_cache s) /\
  (forall rs task m,
      _model_cache (run rs initial) !! task = Some m ->
      Dict.mem task WAN_CONFIGS = true /\
      well_loaded rs.*2 (run rs initial) task m).
Proof.
  split; [apply get_model_raise_keeps_cache|].
  intros rs task m Ht.
  pose proof (run_sound rs [] initial initial_sound task m Ht) as Hw.
  rewrite app_nil_r in Hw. split; [|exact Hw].
  destruct Hw as (cfg & _ & _ & Hcfg & _). apply mem_get. eauto.
Qed.

(** C5: [get_model] is lazy and caches per task.  For a valid task (a key of
    [WAN_CONFIGS] whose name selects a model class) that is not cached yet,
    with its checkpoint directory on disk and a constructor that does not
    raise, the call constructs one new model and stores it under [task];
    from then on, after any further requests, every call with the same task
    returns that very object and leaves the state as it is: the count of
    constructed models and the record of constructor calls do not move. *)
Theorem get_model_lazy_cache w task s cfg c :
  _model_cache s !! task = None ->
  Dict.get WAN_CONFIGS task = Some cfg ->
  os_path_exists w (checkpoint_dir_of task) = true ->
  task_class task = Some c ->
  wan_init w c (init_args task cfg c) = None ->
  exists m s1,
    get_model w task s = (Return m, s1) /\
    m = {| handle := constructed s; model_class := c;
           model_init := init_args task cfg c |} /\
    _model_cache s1 = <[task := m]> (_model_cache s) /\
    constructed s1 = S (constructed s) /\
    calls s1 = CallInit c (init_args task cfg c) :: calls s /\
    forall rs w', get_model w' task (run rs s1) = (Return m, run rs s1).
Proof.
  intros Hc Hcfg Hex Hcls Hinit.
  eexists _, _. split; [by apply get_model_miss|].
  repeat split. intros rs w'. apply get_model_hit, run_keeps_cache.
  simpl. apply lookup_insert_eq.
Qed.

(** *** Failures of a generation request *)

Lemma serve_post w f s :
  serve (POST_generate f) w s =
    (respond FileBody (fst (post_generate w f s)), snd (post_generate w f s)).
Proof. simpl. by destruct (post_generate w f s). Qed.

Lemma reports_caught e :
  reports
    (respond FileBody
       (Raise (HTTPException 500 ("Video generation failed: " +:+ str e)))) e.
Proof.
  split; [reflexivity|]. eexists. split; [reflexivity|]. apply contains_suffix.
Qed.

Ltac caught :=
  lazymatch goal with
  | |- reports _ ?e => exact (reports_caught e)
  end.

Lemma new_calls_1 c s s' : calls s' = c :: calls s -> new_calls s s' = [c].
Proof. apply (new_calls_app [c]). Qed.

Lemma new_calls_2 c d s s' :
  calls s' = c :: d :: calls s -> new_calls s s' = [c; d].
Proof. apply (new_calls_app [c; d]). Qed.

Lemma new_calls_3 c d e s s' :
  calls s' = c :: d :: e :: calls s -> new_calls s s' = [c; d; e].
Proof. apply (new_calls_app [c; d; e]). Qed.

Ltac count_calls :=
  first [ rewrite new_calls_same
        | erewrite new_calls_1 by reflexivity
        | erewrite new_calls_2 by reflexivity
        | erewrite new_calls_3 by reflexivity ].

Ltac pick_call H :=
  repeat (apply elem_of_cons in H; destruct H as [H|H];
          [try discriminate H; try (injection H as -> ->); try subst|]);
  try (by apply elem_of_nil in H).

(** C3: when model loading raises during a generation request, or a library
    call the request makes (a model constructor, [generate], [save_video])
    raises, the response has status 500 and its JSON detail contains the
    message of that exception. *)
Theorem generation_failure_is_500 w f s :
  let r := serve (POST_generate f) w s in
  (forall e,
      Dict.mem (task_of f) WAN_CONFIGS = true ->
      Dict.mem (size_of f) SIZE_CONFIGS = true ->
      image_decodes w f = true ->
      fst (get_model w (task_of f) s) = Raise e ->
      reports (fst r) e) /\
  (forall c e,
      c ∈ new_calls s (snd r) -> raised_by w c = Some e -> reports (fst r) e).
Proof.
  intros r. subst r. rewrite serve_post, post_generate_catches.
  unfold image_decodes.
  destruct (post_generate_try w f s) as [o s'] eqn:E. revert E.
  unfold post_generate_try, generate_video_try, Dict.mem. unfold_step.
  exec.
  all: split; [intros e' Htask Hsize Himage Hload; try done;
               injection Hload as <-; caught|].
  all: intros c' e'; count_calls; intros Hin Hr; pick_call Hin.
  all: simpl in Hr;
    repeat match goal with
           | H : ?x = _, Hr : context [?x] |- _ => rewrite H in Hr
           end;
    simpl in Hr; try discriminate Hr; injection Hr as <-; caught.
Qed.

(** *** Arguments of the [generate] call *)

Ltac run_request w f s :=
  rewrite ?serve_post, ?post_generate_catches;
  let E := fresh "E" in
  destruct (post_generate_try w f s) as [? ?] eqn:E; revert E;
  unfold post_generate_try, generate_video_try, Dict.mem; unfold_step;
  exec.

(** C8: for a request whose task is a key of [WAN_CONFIGS] with entry
    [cfg], every [generate] call of the request receives, for
    [sampling_steps], [guide_scale] and [frame_num], the value of the form
    when the form has one, and [cfg.sample_steps], [cfg.sample_guide_scale],
    [cfg.frame_num] when the form leaves it out. *)
Theorem defaults_resolved_from_config w f s cfg :
  Dict.get WAN_CONFIGS (task_of f) = Some cfg ->
  forall m a,
    CallGenerate m a ∈ new_calls s (snd (serve (POST_generate f) w s)) ->
    g_sampling_steps a =
      match form_sample_steps f with
      | Some steps => steps
      | None => cfg_sample_steps cfg
      end /\
    g_guide_scale a =
      match form_guide_scale f with
      | Some scale => Scale scale
      | None => cfg_sample_guide_scale cfg
      end /\
    g_frame_num a =
      match form_frame_num f with
      | Some n => n
      | None => cfg_frame_num cfg
      end.
Proof.
  intros Hcfg m a. run_request w f s.
  all: count_calls; intros Hin; pick_call Hin.
  all: replace cfg with c by congruence; simpl.
  all: by destruct (form_sample_steps f), (form_guide_scale f),
            (form_frame_num f).
Qed.

(** *** The file a successful request leaves *)

(** C7: a generation request answered with status 200 has passed the
    tensor that [generate] returned (as [video[None]]) to [save_video] with
    the file [OUTPUT_DIR / "<uuid4>.mp4"], where it now is; the response is
    a file response for that very path with media type [video/mp4]; and
    after any further requests the file is still there. *)
Theorem generated_file_is_served_and_kept w f s :
  let r := serve (POST_generate f) w s in
  let output_path := Py.div OUTPUT_DIR (uuid_uuid4 w +:+ ".mp4") in
  status (fst r) = 200 ->
  (exists m a video saved,
      CallGenerate m a ∈ new_calls s (snd r) /\
      wan_generate w m a = Ok video /\
      CallSave saved ∈ new_calls s (snd r) /\
      sv_tensor saved = index_None video /\
      sv_save_file saved = Py.str_path output_path /\
      files (snd r) !! Py.str_path output_path = Some (index_None video)) /\
  Py.name output_path = uuid_uuid4 w +:+ ".mp4" /\
  Py.parent output_path = OUTPUT_DIR /\
  (exists fr,
      body (fst r) = FileBody fr /\
      fr_path fr = output_path /\
      fr_media_type fr = "video/mp4") /\
  forall rs, is_Some (files (run rs (snd r)) !! Py.str_path output_path).
Proof.
  intros r output_path. subst r output_path.
  rewrite name_div, parent_div.
  run_request w f s.
  all: intros Hok; try discriminate Hok.
  all: split; [do 4 eexists; count_calls;
               split; [apply list_elem_of_further, list_elem_of_here|];
               split; [eassumption|];
               split; [apply list_elem_of_here|];
               do 2 (split; [reflexivity|]); apply lookup_insert_eq|].
  all: do 2 (split; [reflexivity|]).
  all: split; [by eexists|].
  all: intros rs; apply run_keeps_files; simpl; rewrite lookup_insert_eq; eauto.
Qed.

(** *** The image of a request *)

Ltac other_detail H :=
  injection H as H; vm_compute in H; discriminate H.

(** C10: a request for a ti2v task (one the branch chain sends to
    [WanTI2V]) that has no image never meets the image-required check;
    every [generate] call it makes has [img=None]; and it does make that
    call as soon as the task and size pass validation, the size has a
    maximal area and the model loads.  Whatever the task, the
    image-required error comes only from a task of the i2v branch without an
    image. *)
Theorem ti2v_image_is_optional w f s :
  (task_class (task_of f) = Some WanTI2V ->
   form_image f = None ->
   fst (post_generate_try w f s) <> Raise image_required /\
   (forall m a,
       CallGenerate m a ∈ new_calls s (snd (serve (POST_generate f) w s)) ->
       g_img a = Some None) /\
   (forall m,
       Dict.mem (task_of f) WAN_CONFIGS = true ->
       Dict.mem (size_of f) SIZE_CONFIGS = true ->
       Dict.mem (size_of f) MAX_AREA_CONFIGS = true ->
       fst (get_model w (task_of f) s) = Return m ->
       exists a,
         CallGenerate m a ∈ new_calls s (snd (serve (POST_generate f) w s)) /\
         g_img a = Some None)) /\
  (fst (post_generate_try w f s) = Raise image_required ->
   task_class (task_of f) = Some WanI2V /\ form_image f = None).
Proof.
  unfold task_class, image_required.
  run_request w f s.
  all: repeat match goal with
         | H : Py.contains _ _ = _ |- _ => rewrite H; clear H
         | H : form_image _ = _ |- _ => rewrite H; clear H
         end.
  all: split; [intros Hcls Himg; try discriminate Hcls; try discriminate Himg
              |intros Hd; first [discriminate Hd | by split | other_detail Hd]].
  all: split; [intros Hd; first [discriminate Hd | other_detail Hd]|].
  all: split; [intros m' a'; count_calls; intros Hin; by pick_call Hin|].
  all: intros m' Htask Hsize Harea Hload; try discriminate.
  all: injection Hload as <-; eexists; count_calls.
  all: split; [repeat first [by apply list_elem_of_here
                            | apply list_elem_of_further]|done].
Qed.

(** *** Status codes of the generation endpoint *)

(** Whatever the [try] block raises, an [HTTPException] of its own
    included, leaves the handler as a 500. *)
Lemma raised_in_try_is_500 w f s e s' :
  post_generate_try w f s = (Raise e, s') ->
  serve (POST_generate f) w s =
    ({| status := 500;
        body := error_body ("Video generation failed: " +:+ str e) |}, s').
Proof. intros E. by rewrite serve_post, post_generate_catches, E. Qed.

Lemma generate_answers_200_or_500 w f s :
  status (fst (serve (POST_generate f) w s)) = 200 \/
  status (fst (serve (POST_generate f) w s)) = 500.
Proof.
  rewrite serve_post, post_generate_catches.
  destruct (post_generate_try w f s) as [[fr|e] s']; [by left | by right].
Qed.

Lemma unknown_task_raises_400 w f s :
  Dict.mem (task_of f) WAN_CONFIGS = false ->
  post_generate_try w f s =
    (Raise (HTTPException 400 ("Unsupported task: " +:+ task_of f)), s).
Proof.
  intros H. unfold post_generate_try, generate_video_try. unfold_step.
  by rewrite H.
Qed.

Lemma unknown_size_raises_400 w f s :
  Dict.mem (task_of f) WAN_CONFIGS = true ->
  Dict.mem (size_of f) SIZE_CONFIGS = false ->
  post_generate_try w f s =
    (Raise (HTTPException 400 ("Unsupported size: " +:+ size_of f)), s).
Proof.
  intros Ht Hs. unfold post_generate_try, generate_video_try. unfold_step.
  by rewrite Ht, Hs.
Qed.

(** * Further properties of the generation endpoint *)

(** X1: A negative seed, and a seed left out, is replaced by
    [random.randint(0, sys.maxsize)]; any other seed reaches [generate] as
    it came. *)
Theorem seed_passed_or_drawn w f s m a :
  CallGenerate m a ∈ new_calls s (snd (serve (POST_generate f) w s)) ->
  (0 <= seed_of f -> g_seed a = seed_of f) /\
  (seed_of f < 0 -> g_seed a = random_randint w 0 sys_maxsize) /\
  (form_seed f = None -> g_seed a = random_randint w 0 sys_maxsize).
Proof.
  unfold seed_of. revert m a. run_request w f s.
  all: intros m' a'; count_calls; intros Hin; pick_call Hin.
  all: simpl; repeat split.
  all: try (intros Hs; destruct (Z.ltb_spec (or_default (form_seed f) (-1)) 0);
            [lia || reflexivity | lia || reflexivity]).
  all: intros ->; reflexivity.
Qed.

(** X2: the three branches call [generate] differently: t2v passes the size
    and neither image nor maximal area, even when an image was uploaded;
    ti2v passes the image (or [None]), the size and the maximal area; i2v
    passes the image and the maximal area but no size.  All three pass the
    prompt, the shift of the configuration, the solver [unipc] and
    [offload_model=True]. *)
Theorem generate_call_by_branch w f s cfg m a :
  Dict.get WAN_CONFIGS (task_of f) = Some cfg ->
  CallGenerate m a ∈ new_calls s (snd (serve (POST_generate f) w s)) ->
  g_prompt a = form_prompt f /\
  g_shift a = cfg_sample_shift cfg /\
  g_sample_solver a = "unipc" /\
  g_offload_model a = true /\
  match task_class (task_of f) with
  | Some WanT2V =>
      g_img a = None /\
      g_size a = Dict.get SIZE_CONFIGS (size_of f) /\ is_Some (g_size a) /\
      g_max_area a = None
  | Some WanTI2V =>
      g_img a = Some (decoded_image w f) /\
      g_size a = Dict.get SIZE_CONFIGS (size_of f) /\ is_Some (g_size a) /\
      g_max_area a = Dict.get MAX_AREA_CONFIGS (size_of f) /\
      is_Some (g_max_area a)
  | Some WanI2V =>
      g_img a = Some (decoded_image w f) /\ is_Some (form_image f) /\
      g_size a = None /\
      g_max_area a = Dict.get MAX_AREA_CONFIGS (size_of f) /\
      is_Some (g_max_area a)
  | None => False
  end.
Proof.
  intros Hcfg. unfold task_class, decoded_image. revert m a.
  run_request w f s.
  all: intros m' a'; count_calls; intros Hin; pick_call Hin.
  all: replace cfg with c by congruence; simpl.
  all: repeat match goal with
         | H : Py.contains _ _ = _ |- _ => rewrite H; clear H
         | H : form_image _ = _ |- _ => rewrite H; clear H
         | H : Image_open_convert _ _ = _ |- _ => rewrite H; clear H
         end.
  all: repeat split; eauto.
Qed.

(** X3: A request stopped by task or size validation, or by an image that
    cannot be opened, is answered 500 and leaves the process as it was: no
    model is loaded and no library call is made.  The image is opened before
    the branch is chosen, so an unreadable image fails a t2v request as
    well, which would never use it. *)
Theorem rejected_before_loading w f s :
  (Dict.mem (task_of f) WAN_CONFIGS = false ->
   serve (POST_generate f) w s =
     ({| status := 500;
         body := error_body
                   ("Video generation failed: " +:+
                    str (HTTPException 400
                           ("Unsupported task: " +:+ task_of f))) |}, s)) /\
  (Dict.mem (task_of f) WAN_CONFIGS = true ->
   Dict.mem (size_of f) SIZE_CONFIGS = false ->
   serve (POST_generate f) w s =
     ({| status := 500;
         body := error_body
                   ("Video generation failed: " +:+
                    str (HTTPException 400
                           ("Unsupported size: " +:+ size_of f))) |}, s)) /\
  (forall upload fl,
      Dict.mem (task_of f) WAN_CONFIGS = true ->
      Dict.mem (size_of f) SIZE_CONFIGS = true ->
      form_image f = Some upload ->
      Image_open_convert w (up_content upload) = Failed fl ->
      serve (POST_generate f) w s =
        ({| status := 500;
            body := error_body
                      ("Video generation failed: " +:+ failure_message fl) |},
         s)).
Proof.
  rewrite serve_post, post_generate_catches.
  unfold post_generate_try, generate_video_try, Dict.mem in *. unfold_step.
  repeat split.
  - intros Ht. by rewrite Ht.
  - intros Ht Hs. by rewrite Ht, Hs.
  - intros upload fl Ht Hs Hup Hfail. rewrite Ht, Hs. simpl.
    destruct (Dict.get WAN_CONFIGS (task_of f)); [|done]. simpl.
    by rewrite Hup, Hfail.
Qed.

(** X4: once [get_model] has returned during a request, its model is in the
    cache when the request ends, whatever the response: a request that
    fails afterwards (the image check of i2v, [generate], [save_video]) has
    still loaded the model for the requests to come. *)
Theorem loaded_model_outlives_request w f s m :
  Dict.mem (task_of f) WAN_CONFIGS = true ->
  Dict.mem (size_of f) SIZE_CONFIGS = true ->
  image_decodes w f = true ->
  fst (get_model w (task_of f) s) = Return m ->
  _model_cache (snd (serve (POST_generate f) w s)) !! task_of f = Some m /\
  forall rs w',
    get_model w' (task_of f) (run rs (snd (serve (POST_generate f) w s))) =
      (Return m, run rs (snd (serve (POST_generate f) w s))).
Proof.
  intros Htask Hsize Himage Hload.
  assert (Hc : _model_cache (snd (serve (POST_generate f) w s)) !! task_of f
               = Some m).
  { revert Htask Hsize Himage Hload. unfold image_decodes.
    run_request w f s; intros Htask Hsize Himage Hload; try done.
    all: injection Hload as <-; simpl; first [assumption | apply lookup_insert_eq]. }
  split; [exact Hc|]. intros rs w'. by apply get_model_hit, run_keeps_cache.
Qed.

(** X5: the model [generate] is called on is the one [get_model] returned for
    the task of the request, and it is the cached model of that task when
    the request ends. *)
Theorem generate_runs_on_cached_model w f s m a :
  CallGenerate m a ∈ new_calls s (snd (serve (POST_generate f) w s)) ->
  fst (get_model w (task_of f) s) = Return m /\
  _model_cache (snd (serve (POST_generate f) w s)) !! task_of f = Some m.
Proof.
  revert m a. run_request w f s.
  all: intros m' a'; count_calls; intros Hin; pick_call Hin.
  all: split; [reflexivity|]; simpl; first [assumption | apply lookup_insert_eq].
Qed.

(** X6: one request records at most one constructor call, then at most one
    [generate] call, then at most one [save_video] call, and [save_video]
    only after [generate]. *)
Theorem one_call_of_each w f s :
  in_call_order (new_calls s (snd (serve (POST_generate f) w s))) = true.
Proof. run_request w f s. all: count_calls; reflexivity. Qed.

(** X7: the last branch of the chain in [generate_video], the 400 for an
    unsupported task type, is never taken in a running process: a task with
    no model class cannot get past [get_model], which raises its own
    [ValueError] for it and never caches it. *)
Theorem unsupported_type_branch_is_dead rs w f :
  fst (post_generate_try w f (run rs initial)) <>
    Raise (HTTPException 400 ("Unsupported task type: " +:+ task_of f)).
Proof.
  pose proof (run_sound rs [] initial initial_sound) as Hsound.
  revert Hsound. generalize (run rs initial) as s, (rs.*2 ++ []) as ws.
  intros s ws.
  destruct (post_generate_try w f s) as [o s'] eqn:E. revert E.
  unfold post_generate_try, generate_video_try, Dict.mem. unfold_step.
  exec.
  all: intros Hsound Hd; try discriminate Hd.
  all: try (injection Hd as Hd; vm_compute in Hd; discriminate Hd).
  all: repeat match goal with
         | H : _model_cache _ !! _ = Some _ |- _ =>
             apply Hsound in H; destruct H as (? & ? & ? & _ & H & _)
         end;
       unfold task_class in *;
       repeat match goal with
         | H : Py.contains _ _ = _, Hc : context [Py.contains _ _] |- _ =>
             rewrite H in Hc
         end;
       discriminate.
Qed.

(** X8: the disk changes in one way only: a [save_video] call that does not
    raise writes its tensor to [OUTPUT_DIR / "<uuid4>.mp4"].  A request
    without such a call leaves every file as it was. *)
Theorem disk_changes_by_one_save w f s :
  let s' := snd (serve (POST_generate f) w s) in
  ((forall sa, CallSave sa ∈ new_calls s s' ->
               is_Some (save_video_raises w sa)) ->
   files s' = files s) /\
  (forall sa,
      CallSave sa ∈ new_calls s s' -> save_video_raises w sa = None ->
      sv_save_file sa = Py.str_path (output_path_of w) /\
      files s' = <[Py.str_path (output_path_of w) := sv_tensor sa]> (files s)).
Proof.
  unfold output_path_of. run_request w f s.
  all: count_calls; split;
    [intros Hnone
    |intros sa Hin Hok; pick_call Hin; try (injection Hin as ->);
     first [congruence | by split]].
  all: try reflexivity.
  all: exfalso;
    match goal with
    | H : save_video_raises _ ?x = None |- _ =>
        destruct (Hnone x (list_elem_of_here _ _)) as [? Hsome]; congruence
    end.
Qed.

(** X9: when [torch.cuda.empty_cache()] raises after the video was saved, the
    request is answered 500 with that message, and the file stays on disk:
    no later request removes it. *)
Theorem failure_after_save_leaves_file w f s sa fl :
  CallSave sa ∈ new_calls s (snd (serve (POST_generate f) w s)) ->
  save_video_raises w sa = None ->
  cuda_empty_cache_raises w = Some fl ->
  reports (fst (serve (POST_generate f) w s)) (Foreign fl) /\
  files (snd (serve (POST_generate f) w s)) !! Py.str_path (output_path_of w) =
    Some (sv_tensor sa) /\
  forall rs,
    is_Some (files (run rs (snd (serve (POST_generate f) w s)))
               !! Py.str_path (output_path_of w)).
Proof.
  unfold output_path_of. run_request w f s.
  all: count_calls; intros Hin Hok Hfl; pick_call Hin;
       try (injection Hin as ->); try congruence.
  all: injection Hfl as <-; split; [caught|].
  all: split; [apply lookup_insert_eq|].
  all: intros rs; apply run_keeps_files; simpl; rewrite lookup_insert_eq; eauto.
Qed.

(** *** Counting models *)

Lemma tidy_same s s' :
  _model_cache s' = _model_cache s -> constructed s' = constructed s ->
  tidy s -> tidy s'.
Proof. unfold tidy. intros -> ->. done. Qed.

Lemma get_model_tidy w task s : tidy s -> tidy (snd (get_model w task s)).
Proof.
  intros Ht. loaded_cases w task s; simpl; try done;
    try (by eapply tidy_same; [| |eassumption]).
  destruct Ht as (Hsize & Hbound & Hdistinct). unfold tidy. simpl.
  split; [by rewrite map_size_insert_None, Hsize|]. split.
  - intros t m. rewrite lookup_insert. case_decide.
    + intros [= <-]. simpl. lia.
    + intros Hm. apply Hbound in Hm. lia.
  - intros t1 t2 m1 m2. rewrite !lookup_insert.
    repeat case_decide; subst; try done.
    + intros [= <-] Hm Heq. apply Hbound in Hm. simpl in Heq. lia.
    + intros Hm [= <-] Heq. apply Hbound in Hm. simpl in Heq. lia.
    + apply Hdistinct.
Qed.

Lemma post_generate_tidy w f s : tidy s -> tidy (snd (post_generate w f s)).
Proof.
  intros Ht.
  destruct (post_generate_frame w f s) as [->|(Hc & Hn & _)]; [done|].
  apply (tidy_same (snd (get_model w (task_of f) s))); [done..|].
  by apply get_model_tidy.
Qed.

Lemma run_tidy rs s : tidy s -> tidy (run rs s).
Proof.
  revert s. induction rs as [|[r w] rs IH]; intros s Ht; simpl; [done|].
  apply IH. rewrite serve_state. destruct r; try done.
  by apply post_generate_tidy.
Qed.

(** X10: in a running process the cache has exactly as many entries as models
    were constructed, and distinct tasks hold distinct model objects: no
    model is built and dropped, none is built twice for a task, none is
    shared between tasks. *)
Theorem one_model_per_cached_task rs :
  size (_model_cache (run rs initial)) = constructed (run rs initial) /\
  forall t1 t2 m1 m2,
    _model_cache (run rs initial) !! t1 = Some m1 ->
    _model_cache (run rs initial) !! t2 = Some m2 ->
    handle m1 = handle m2 -> t1 = t2.
Proof.
  assert (Hinit : tidy initial).
  { unfold tidy. simpl. rewrite map_size_empty.
    split; [done|]. split; intros *; by rewrite lookup_empty. }
  destruct (run_tidy rs initial Hinit) as (Hsize & _ & Hdistinct). done.
Qed.

(** X11: A failed load is not remembered: after a call of [get_model] that
    raised, a call for the same task in a world where the checkpoint is
    there and the constructor works builds the model, as a first call
    would. *)
Theorem failed_load_is_retried w1 w2 task s e s1 cfg c :
  get_model w1 task s = (Raise e, s1) ->
  Dict.get WAN_CONFIGS task = Some cfg ->
  os_path_exists w2 (checkpoint_dir_of task) = true ->
  task_class task = Some c ->
  wan_init w2 c (init_args task cfg c) = None ->
  exists m s2,
    get_model w2 task s1 = (Return m, s2) /\
    handle m = constructed s /\
    _model_cache s2 !! task = Some m /\
    new_calls s1 s2 = [CallInit c (init_args task cfg c)].
Proof.
  intros Hraise Hcfg Hex Hcls Hinit.
  assert (Hs1 : _model_cache s1 !! task = None /\ constructed s1 = constructed s).
  { loaded_cases w1 task s; try discriminate; injection Hraise as <- <-; done. }
  destruct Hs1 as [Hnone Hcount].
  eexists _, _. split; [by apply get_model_miss|].
  simpl. rewrite Hcount. split; [done|].
  split; [apply lookup_insert_eq | by apply new_calls_1].
Qed.

(** *** Validation against the tables *)

(** X12: the tasks [GET /tasks] lists are exactly the tasks that get past the
    task validation of [POST /generate]. *)
Theorem listed_tasks_pass_validation w f s items :
  field list_tasks "available_tasks" = Some (JArray items) ->
  JString (task_of f) ∈ items <->
  fst (post_generate_try w f s) <>
    Raise (HTTPException 400 ("Unsupported task: " +:+ task_of f)).
Proof.
  intros [= <-]. rewrite list_elem_of_fmap.
  assert (Hlisted :
    (exists t, JString (task_of f) = JString t /\ t ∈ Dict.keys WAN_CONFIGS) <->
    Dict.mem (task_of f) WAN_CONFIGS = true).
  { rewrite mem_keys.
    split; [by intros (t & [= <-] & Ht) | intros Ht; by eexists]. }
  rewrite Hlisted. clear Hlisted. split.
  - destruct (post_generate_try w f s) as [o s'] eqn:E. revert E.
    unfold post_generate_try, generate_video_try, Dict.mem. unfold_step.
    exec.
    all: intros Hmem Hd; try discriminate Hmem; try discriminate Hd.
    all: injection Hd as Hd; vm_compute in Hd; discriminate Hd.
  - intros Hpass.
    destruct (Dict.mem (task_of f) WAN_CONFIGS) eqn:Hmem; [done|].
    exfalso. apply Hpass. by rewrite unknown_task_raises_400.
Qed.

(** X13: the lookups in [WAN_CONFIGS] and [SIZE_CONFIGS] come after validation
    and never fail.  A [KeyError] can only come from [MAX_AREA_CONFIGS], in
    the ti2v and i2v branches, for a size that [SIZE_CONFIGS] has and
    [MAX_AREA_CONFIGS] lacks; it is raised after the model was loaded. *)
Theorem key_error_only_from_max_area w f s k :
  fst (post_generate_try w f s) = Raise (KeyError k) ->
  k = size_of f /\
  Dict.mem (size_of f) SIZE_CONFIGS = true /\
  Dict.mem (size_of f) MAX_AREA_CONFIGS = false /\
  (task_class (task_of f) = Some WanTI2V \/
   task_class (task_of f) = Some WanI2V) /\
  exists m, fst (get_model w (task_of f) s) = Return m.
Proof.
  unfold task_class.
  destruct (post_generate_try w f s) as [o s'] eqn:E. revert E.
  unfold post_generate_try, generate_video_try, Dict.mem. unfold_step.
  exec.
  all: intros Hk; try discriminate Hk.
  all: try congruence.
  all: injection Hk as <-.
  all: repeat match goal with
         | H : Py.contains _ _ = _ |- _ => rewrite H; clear H
         end.
  all: repeat split; eauto.
Qed.

End Facts.

(** * The sample deployment at work *)

#[local] Existing Instance Sample.deployment.

(** C1: the handler does raise a 400 for a task that is not a key of
    [WAN_CONFIGS] and for a size that is not a key of [SIZE_CONFIGS], but it
    raises it inside its own [try] block, whose [except Exception] turns it
    into a 500: the client never sees the 400. *)
Theorem unknown_task_or_size_is_answered_500 :
  Dict.mem "s2v-14B" WAN_CONFIGS = false /\
  fst (post_generate_try Sample.ready (Sample.form "s2v-14B" None) initial) =
    Raise (HTTPException 400 "Unsupported task: s2v-14B") /\
  fst (serve (POST_generate (Sample.form "s2v-14B" None)) Sample.ready initial) =
    {| status := 500;
       body := error_body
                 "Video generation failed: 400: Unsupported task: s2v-14B" |} /\
  Dict.mem "640*480" SIZE_CONFIGS = false /\
  fst (post_generate_try Sample.ready Sample.bad_size_form initial) =
    Raise (HTTPException 400 "Unsupported size: 640*480") /\
  fst (serve (POST_generate Sample.bad_size_form) Sample.ready initial) =
    {| status := 500;
       body := error_body
                 "Video generation failed: 400: Unsupported size: 640*480" |}.
Proof. repeat split; vm_compute; reflexivity. Qed.

(** C2: for the i2v task without an image the handler loads the model,
    reaches the image check and raises its 400, which the enclosing
    [except Exception] answers as a 500. *)
Theorem missing_image_is_answered_500 :
  task_class "i2v-A14B" = Some WanI2V /\
  fst (post_generate_try Sample.ready (Sample.form "i2v-A14B" None) initial) =
    Raise (HTTPException 400 "Image is required for i2v task") /\
  fst (serve (POST_generate (Sample.form "i2v-A14B" None)) Sample.ready initial) =
    {| status := 500;
       body := error_body
                 "Video generation failed: 400: Image is required for i2v task" |}.
Proof. repeat split; vm_compute; reflexivity. Qed.

(** The conditions on the disk and the constructor are needed: with the
    checkpoint directory of t2v-A14B missing, a call raises and leaves the
    process as it was, and the model is constructed by a later call. *)
Lemma failed_call_caches_nothing :
  Dict.mem "t2v-A14B" WAN_CONFIGS = true /\
  get_model Sample.no_checkpoints "t2v-A14B" initial =
    (Raise (FileNotFoundError
              "Model checkpoint not found at ./models/Wan2.2-T2V-A14B"),
     initial) /\
  constructed (snd (get_model Sample.ready "t2v-A14B" initial)) = 1%nat.
Proof. repeat split; vm_compute; reflexivity. Qed.

Lemma get_model_lazy_cache_witness :
  exists m s1,
    get_model Sample.ready "ti2v-5B" initial = (Return m, s1) /\
    m = Sample.ti2v_model /\
    forall rs w', get_model w' "ti2v-5B" (run rs s1) = (Return m, run rs s1).
Proof.
  destruct (get_model_lazy_cache Sample.ready "ti2v-5B" initial
              Sample.ti2v_5B WanTI2V)
    as (m & s1 & Hcall & Hm & _ & _ & _ & Hlater);
    [vm_compute; reflexivity ..|].
  exists m, s1. split; [exact Hcall|]. split; [exact Hm | exact Hlater].
Defined.

Lemma sizes_endpoint_witness :
  serve (GET_sizes "s2v-14B") Sample.ready initial =
    ({| status := 400; body := error_body "Unknown task: s2v-14B" |}, initial) /\
  exists j,
    serve (GET_sizes "ti2v-5B") Sample.ready initial =
      ({| status := 200; body := JsonBody j |}, initial) /\
    field j "supported_sizes" = Some (json_strings ["704*1280"; "1280*704"]).
Proof.
  split.
  - apply (proj1 (sizes_endpoint Sample.ready initial "s2v-14B")).
    vm_compute; reflexivity.
  - destruct (proj2 (sizes_endpoint Sample.ready initial "ti2v-5B")
                ["704*1280"; "1280*704"])
      as (_ & j & Hj & _ & _ & Hsizes); [vm_compute; reflexivity|].
    exists j. split; [exact Hj | exact Hsizes].
Defined.

Lemma failed_load_keeps_cache_witness :
  _model_cache (snd (get_model Sample.no_checkpoints "t2v-A14B" initial)) = ∅ /\
  Dict.mem "ti2v-5B" WAN_CONFIGS = true /\
  well_loaded [Sample.ready]
    (run [(POST_generate (Sample.form "ti2v-5B" None), Sample.ready)] initial)
    "ti2v-5B" Sample.ti2v_model.
Proof.
  destruct failed_load_keeps_cache as [Hraise Hkeys]. split.
  - apply (Hraise Sample.no_checkpoints "t2v-A14B" initial
             (FileNotFoundError
                "Model checkpoint not found at ./models/Wan2.2-T2V-A14B")).
    vm_compute; reflexivity.
  - apply (Hkeys [(POST_generate (Sample.form "ti2v-5B" None), Sample.ready)]
             "ti2v-5B" Sample.ti2v_model).
    vm_compute; reflexivity.
Defined.

Lemma generation_failure_is_500_witness :
  fst (get_model Sample.no_checkpoints "ti2v-5B" initial) =
    Raise (FileNotFoundError
             "Model checkpoint not found at ./models/Wan2.2-TI2V-5B") /\
  reports
    (fst (serve (POST_generate (Sample.form "ti2v-5B" None))
            Sample.no_checkpoints initial))
    (FileNotFoundError "Model checkpoint not found at ./models/Wan2.2-TI2V-5B") /\
  raised_by Sample.out_of_memory
    (CallGenerate Sample.ti2v_model (Sample.ti2v_args 50)) =
    Some (Foreign Sample.out_of_memory_error) /\
  reports
    (fst (serve (POST_generate (Sample.form "ti2v-5B" None))
            Sample.out_of_memory initial))
    (Foreign Sample.out_of_memory_error).
Proof.
  assert (Hload :
    fst (get_model Sample.no_checkpoints "ti2v-5B" initial) =
      Raise (FileNotFoundError
               "Model checkpoint not found at ./models/Wan2.2-TI2V-5B"))
    by (vm_compute; reflexivity).
  assert (Hraised :
    raised_by Sample.out_of_memory
      (CallGenerate Sample.ti2v_model (Sample.ti2v_args 50)) =
      Some (Foreign Sample.out_of_memory_error))
    by (vm_compute; reflexivity).
  split; [exact Hload|]. split.
  - apply (proj1 (generation_failure_is_500 Sample.no_checkpoints
                    (Sample.form "ti2v-5B" None) initial));
      solve [exact Hload | vm_compute; reflexivity].
  - split; [exact Hraised|].
    apply (proj2 (generation_failure_is_500 Sample.out_of_memory
                    (Sample.form "ti2v-5B" None) initial)
             (CallGenerate Sample.ti2v_model (Sample.ti2v_args 50)));
      [|exact Hraised].
    apply (list_elem_of_lookup_2 _ 0%nat). vm_compute; reflexivity.
Defined.

Lemma generated_file_witness :
  status (fst (serve (POST_generate (Sample.form "ti2v-5B" None))
                 Sample.ready initial)) = 200 /\
  (exists fr,
      body (fst (serve (POST_generate (Sample.form "ti2v-5B" None))
                   Sample.ready initial)) = FileBody fr /\
      Py.str_path (fr_path fr) = Sample.saved_file) /\
  files (snd (serve (POST_generate (Sample.form "ti2v-5B" None))
                Sample.ready initial)) !! Sample.saved_file =
    Some (index_None Sample.clip) /\
  forall rs,
    is_Some
      (files (run rs (snd (serve (POST_generate (Sample.form "ti2v-5B" None))
                             Sample.ready initial))) !! Sample.saved_file).
Proof.
  assert (Hok :
    status (fst (serve (POST_generate (Sample.form "ti2v-5B" None))
                   Sample.ready initial)) = 200)
    by (vm_compute; reflexivity).
  destruct (generated_file_is_served_and_kept Sample.ready
              (Sample.form "ti2v-5B" None) initial Hok)
    as ((m & a & video & saved & _ & Hvideo & _ & _ & _ & Hfile) & _ & _ &
        (fr & Hbody & Hpath & _) & Hkept).
  split; [exact Hok|]. split; [|split].
  - exists fr. split; [exact Hbody|]. rewrite Hpath. vm_compute; reflexivity.
  - injection Hvideo as <-. exact Hfile.
  - exact Hkept.
Defined.

Lemma defaults_resolved_witness :
  Dict.get WAN_CONFIGS (task_of Sample.quick_form) = Some Sample.ti2v_5B /\
  CallGenerate Sample.ti2v_model (Sample.ti2v_args 30)
    ∈ new_calls initial
        (snd (serve (POST_generate Sample.quick_form) Sample.ready initial)) /\
  g_sampling_steps (Sample.ti2v_args 30) = 30 /\
  g_guide_scale (Sample.ti2v_args 30) = cfg_sample_guide_scale Sample.ti2v_5B /\
  g_frame_num (Sample.ti2v_args 30) = cfg_frame_num Sample.ti2v_5B.
Proof.
  assert (Hcfg :
    Dict.get WAN_CONFIGS (task_of Sample.quick_form) = Some Sample.ti2v_5B)
    by (vm_compute; reflexivity).
  assert (Hcall :
    CallGenerate Sample.ti2v_model (Sample.ti2v_args 30)
      ∈ new_calls initial
          (snd (serve (POST_generate Sample.quick_form) Sample.ready initial)))
    by (apply (list_elem_of_lookup_2 _ 1%nat); vm_compute; reflexivity).
  split; [exact Hcfg|]. split; [exact Hcall|].
  exact (defaults_resolved_from_config Sample.ready Sample.quick_form initial
           Sample.ti2v_5B Hcfg Sample.ti2v_model (Sample.ti2v_args 30) Hcall).
Defined.

Lemma ti2v_image_is_optional_witness :
  fst (post_generate_try Sample.ready (Sample.form "ti2v-5B" None) initial)
    <> Raise image_required /\
  (exists a,
      CallGenerate Sample.ti2v_model a
        ∈ new_calls initial
            (snd (serve (POST_generate (Sample.form "ti2v-5B" None))
                    Sample.ready initial)) /\
      g_img a = Some None) /\
  fst (post_generate_try Sample.ready (Sample.form "i2v-A14B" None) initial) =
    Raise image_required /\
  task_class (task_of (Sample.form "i2v-A14B" None)) = Some WanI2V.
Proof.
  destruct (proj1 (ti2v_image_is_optional Sample.ready
                     (Sample.form "ti2v-5B" None) initial))
    as (Hpass & _ & Hcalled); [vm_compute; reflexivity ..|].
  assert (Hcheck :
    fst (post_generate_try Sample.ready (Sample.form "i2v-A14B" None) initial) =
      Raise image_required)
    by (vm_compute; reflexivity).
  split; [exact Hpass|]. split; [|split; [exact Hcheck|]].
  - apply (Hcalled Sample.ti2v_model); vm_compute; reflexivity.
  - exact (proj1 (proj2 (ti2v_image_is_optional Sample.ready
                           (Sample.form "i2v-A14B" None) initial) Hcheck)).
Defined.

(** * Paths, the download script and the smoke test *)

Example parse_examples :
  Pathlib.parse "/app/models" = ["/"; "app"; "models"] /\
  Pathlib.parse "./models" = ["models"] /\
  Pathlib.parse "//srv///models/./x/" = ["//"; "srv"; "models"; "x"] /\
  Pathlib.parse "///srv" = ["/"; "srv"] /\
  Pathlib.parse "" = [] /\
  Pathlib.render (Pathlib.parse "//srv///models/./x/") = "//srv/models/x" /\
  Pathlib.render (Pathlib.parse "./") = "." /\
  Pathlib.render (Download.model_path_of "/app/models/" "Wan2.2-TI2V-5B") =
    "/app/models/Wan2.2-TI2V-5B".
Proof. repeat split; vm_compute; reflexivity. Qed.

(** *** Joining a name to a directory, as a string and as a path *)

Lemma append_assoc (a b c : string) : (a +:+ b) +:+ c = a +:+ b +:+ c.
Proof.
  induction a as [|x a IH]; [done|].
  change (String x (a +:+ b) +:+ c = String x (a +:+ b +:+ c)).
  change (String x ((a +:+ b) +:+ c) = String x (a +:+ b +:+ c)).
  by rewrite IH.
Qed.

Lemma segments_nonempty (s : string) : Pathlib.segments s <> [].
Proof.
  destruct s as [|c s]; simpl; [done|].
  case_bool_decide; [done|]. by destruct (Pathlib.segments s).
Qed.

Lemma segments_app_sep (a b : string) :
  Pathlib.segments (a +:+ "/" +:+ b) =
    Pathlib.segments a ++ Pathlib.segments b.
Proof.
  induction a as [|c a IH]; [done|].
  change (String c a +:+ "/" +:+ b) with (String c (a +:+ "/" +:+ b)).
  simpl. rewrite IH. case_bool_decide; [done|].
  pose proof (segments_nonempty a). by destruct (Pathlib.segments a).
Qed.

Lemma endswith_sep_split (d : string) :
  Py.endswith_sep d = true -> exists d', d = d' +:+ "/".
Proof.
  induction d as [|c d IH]; [done|]. simpl.
  destruct d as [|c' d].
  - case_bool_decide; [|done]. subst. intros _. by exists "".
  - intros H. destruct (IH H) as [d' ->]. by exists (String c d').
Qed.

Lemma tail_app_sep (r name : string) :
  Pathlib.one_part name = true ->
  Pathlib.tail (r +:+ "/" +:+ name) = Pathlib.tail r ++ [name].
Proof.
  unfold Pathlib.one_part, Pathlib.tail.
  intros [Hseg Hkept]%andb_true_iff. apply bool_decide_eq_true in Hseg.
  rewrite segments_app_sep, List.filter_app, Hseg. simpl. by rewrite Hkept.
Qed.

Lemma tail_app_name (r name : string) :
  Pathlib.one_part name = true ->
  r = "" \/ Py.endswith_sep r = true ->
  Pathlib.tail (r +:+ name) = Pathlib.tail r ++ [name].
Proof.
  intros Hone [->|Hend].
  - unfold Pathlib.one_part, Pathlib.tail in *.
    apply andb_true_iff in Hone as [Hseg Hkept].
    apply bool_decide_eq_true in Hseg.
    change ("" +:+ name) with name. rewrite Hseg. simpl. by rewrite Hkept.
  - destruct (endswith_sep_split r Hend) as [r' ->].
    rewrite append_assoc.
    change ("/" +:+ name) with (String "/" name).
    change (r' +:+ String "/" name) with (r' +:+ "/" +:+ name).
    rewrite tail_app_sep by done.
    unfold Pathlib.tail at 2.
    change (r' +:+ "/") with (r' +:+ "/" +:+ "").
    rewrite segments_app_sep, List.filter_app. simpl.
    by rewrite app_nil_r.
Qed.

Lemma one_part_no_lead (name : string) :
  Pathlib.one_part name = true ->
  String.prefix "/" name = false /\ Pathlib.starts_sep name = false.
Proof.
  unfold Pathlib.one_part. intros [Hseg _]%andb_true_iff.
  apply bool_decide_eq_true in Hseg.
  destruct name as [|c name]; [done|]. simpl in Hseg.
  assert (Hc : c <> "/"%char).
  { intros ->. by rewrite bool_decide_true in Hseg. }
  split.
  - cbn [String.prefix]. destruct (ascii_dec "/" c); [congruence | done].
  - simpl. by rewrite bool_decide_false.
Qed.

Lemma endswith_sep_cons (c : ascii) (r : string) :
  Py.endswith_sep (String c r) = true -> r = "" \/ Py.endswith_sep r = true.
Proof. destruct r; [by left | by right]. Qed.

Lemma rel_ends (d : string) :
  Py.endswith_sep d = true ->
  snd (Pathlib.splitroot d) = "" \/
  Py.endswith_sep (snd (Pathlib.splitroot d)) = true.
Proof.
  intros Hd. unfold Pathlib.splitroot.
  destruct d as [|c1 d]; [done|].
  destruct (negb (Pathlib.starts_sep (String c1 d))); [by right|].
  apply endswith_sep_cons in Hd as [->|Hd]; [by left|].
  destruct d as [|c2 d]; [done|].
  destruct (negb (Pathlib.starts_sep (Pathlib.rest (String c1 (String c2 d))))
            || Pathlib.starts_sep
                 (Pathlib.rest (Pathlib.rest (String c1 (String c2 d)))));
    [by right|].
  simpl. by apply endswith_sep_cons in Hd.
Qed.

Lemma splitroot_app (d x : string) :
  Pathlib.starts_sep x = false \/ (d <> "" /\ Py.endswith_sep d = false) ->
  Pathlib.splitroot (d +:+ x) =
    (fst (Pathlib.splitroot d), snd (Pathlib.splitroot d) +:+ x).
Proof.
  intros Hx. unfold Pathlib.splitroot.
  destruct d as [|c1 [|c2 [|c3 d]]].
  - change ("" +:+ x) with x.
    destruct Hx as [Hx|[? _]]; [|done]. destruct x; [done|].
    simpl in *. by rewrite Hx.
  - change (String c1 "" +:+ x) with (String c1 x). simpl.
    case_bool_decide; simpl; [|done].
    destruct Hx as [Hx|[_ Hx]].
    + by rewrite Hx.
    + simpl in Hx. by rewrite bool_decide_true in Hx.
  - change (String c1 (String c2 "") +:+ x) with (String c1 (String c2 x)).
    simpl. case_bool_decide; simpl; [|done].
    case_bool_decide; simpl; [|done].
    destruct Hx as [Hx|[_ Hx]].
    + by rewrite Hx.
    + simpl in Hx. by rewrite bool_decide_true in Hx.
  - change (String c1 (String c2 (String c3 d)) +:+ x)
      with (String c1 (String c2 (String c3 (d +:+ x)))).
    simpl. by repeat (case_bool_decide; simpl).
Qed.

Lemma parse_join (d name : string) :
  Pathlib.one_part name = true ->
  Pathlib.parse (Py.os_path_join d name) = Py.div (Pathlib.parse d) name.
Proof.
  intros Hone. destruct (one_part_no_lead name Hone) as [Hlead Hsep].
  unfold Py.os_path_join. rewrite Hlead.
  assert (Hdiv : forall root rel x,
    Pathlib.tail (rel +:+ x) = Pathlib.tail rel ++ [name] ->
    (if bool_decide (root = "") then Pathlib.tail (rel +:+ x)
     else root :: Pathlib.tail (rel +:+ x)) =
    Py.div (if bool_decide (root = "") then Pathlib.tail rel
            else root :: Pathlib.tail rel) name).
  { intros root rel x ->. unfold Py.div. by case_bool_decide. }
  destruct (bool_decide (d = "") || Py.endswith_sep d) eqn:Hd.
  - unfold Pathlib.parse. rewrite splitroot_app by (by left).
    destruct (Pathlib.splitroot d) as [root rel] eqn:Hroot. simpl.
    apply Hdiv, tail_app_name; [done|].
    apply orb_true_iff in Hd as [Hd|Hd].
    + apply bool_decide_eq_true in Hd. subst d. left.
      by injection Hroot as _ <-.
    + pose proof (rel_ends d Hd) as Hrel. by rewrite Hroot in Hrel.
  - apply orb_false_iff in Hd as [Hne Hend].
    apply bool_decide_eq_false in Hne.
    unfold Pathlib.parse. rewrite splitroot_app by (by right).
    destruct (Pathlib.splitroot d) as [root rel]. simpl.
    by apply Hdiv, tail_app_sep.
Qed.

(** *** From a path to its string and back *)


Lemma segments_parts (s : string) :
  Forall (fun x => Pathlib.segments x = [x]) (Pathlib.segments s).
Proof.
  induction s as [|c s IH]; simpl; [by repeat constructor|].
  case_bool_decide as Hc; [by constructor|].
  destruct (Pathlib.segments s) as [|x others]; simpl.
  - repeat constructor. simpl. by rewrite bool_decide_false.
  - inversion IH as [|? ? Hx Hothers]; subst. constructor; [|done].
    simpl. by rewrite bool_decide_false, Hx.
Qed.

Lemma tail_one_part (rel : string) :
  forallb Pathlib.one_part (Pathlib.tail rel) = true.
Proof.
  unfold Pathlib.tail. pose proof (segments_parts rel) as Hparts.
  induction Hparts as [|x l Hx Hl IH]; simpl; [done|].
  destruct (Pathlib.kept x) eqn:Hk; simpl; [|done].
  rewrite IH, andb_true_r. unfold Pathlib.one_part.
  by rewrite Hk, bool_decide_true.
Qed.

Lemma parse_well_formed (s : string) : Pathlib.well_formed (Pathlib.parse s) = true.
Proof.
  unfold Pathlib.parse, Pathlib.splitroot.
  pose proof tail_one_part as Htail.
  destruct (negb (Pathlib.starts_sep s)); simpl.
  - specialize (Htail s). destruct (Pathlib.tail s) as [|x l]; [done|].
    simpl in *. apply andb_true_iff in Htail as [-> ->].
    by rewrite orb_true_r.
  - destruct (negb (Pathlib.starts_sep (Pathlib.rest s))
              || Pathlib.starts_sep (Pathlib.rest (Pathlib.rest s)));
      simpl; apply Htail.
Qed.

Lemma well_formed_div (p : Py.Path) (name : string) :
  Pathlib.well_formed p = true -> Pathlib.one_part name = true ->
  Pathlib.well_formed (Py.div p name) = true.
Proof.
  intros Hp Hn. unfold Py.div. destruct p as [|first others]; simpl in *.
  - by rewrite Hn, orb_true_r.
  - apply andb_true_iff in Hp as [-> Hothers]. simpl.
    rewrite forallb_app, Hothers. simpl. by rewrite Hn.
Qed.

Lemma starts_sep_app (x y : string) :
  x <> "" -> Pathlib.starts_sep (x +:+ y) = Pathlib.starts_sep x.
Proof. by destruct x. Qed.

Lemma one_part_nonempty (x : string) : Pathlib.one_part x = true -> x <> "".
Proof.
  unfold Pathlib.one_part, Pathlib.kept.
  intros [_ [Hx _]%andb_true_iff]%andb_true_iff.
  by apply negb_true_iff, bool_decide_eq_false in Hx.
Qed.

Lemma join_no_lead (l : list string) :
  forallb Pathlib.one_part l = true ->
  Pathlib.starts_sep (Py.join_parts l) = false.
Proof.
  destruct l as [|x [|y l]]; simpl; [done| |].
  - rewrite andb_true_r. intros Hx. by apply one_part_no_lead.
  - intros [Hx _]%andb_true_iff.
    rewrite starts_sep_app by (by apply one_part_nonempty).
    by apply one_part_no_lead.
Qed.

Lemma tail_join (l : list string) :
  forallb Pathlib.one_part l = true ->
  Pathlib.tail (Py.join_parts l) = l.
Proof.
  induction l as [|x l IH]; [done|].
  intros [Hx Hl]%andb_true_iff.
  assert (Hsingle : Pathlib.tail x = [x]).
  { unfold Pathlib.one_part in Hx. apply andb_true_iff in Hx as [Hseg Hk].
    apply bool_decide_eq_true in Hseg. unfold Pathlib.tail.
    rewrite Hseg. simpl. by rewrite Hk. }
  destruct l as [|y l]; [exact Hsingle|].
  change (Py.join_parts (x :: y :: l))
    with (x +:+ "/" +:+ Py.join_parts (y :: l)).
  unfold Pathlib.tail in *.
  rewrite segments_app_sep, List.filter_app, Hsingle, IH; done.
Qed.

Lemma parse_render (p : Py.Path) :
  Pathlib.well_formed p = true -> Pathlib.parse (Pathlib.render p) = p.
Proof.
  destruct p as [|first others]; [done|].
  intros [Hfirst Hothers]%andb_true_iff.
  pose proof (join_no_lead others Hothers) as Hlead.
  pose proof (tail_join others Hothers) as Htail.
  unfold Pathlib.render, Pathlib.parse, Pathlib.splitroot.
  destruct (bool_decide (first = "/")) eqn:H1;
    [|destruct (bool_decide (first = "//")) eqn:H2]; cbn [orb].
  - apply bool_decide_eq_true in H1. subst first.
    change ("/" +:+ Py.join_parts others)
      with (String "/" (Py.join_parts others)).
    cbn [Pathlib.starts_sep Pathlib.rest]. rewrite Hlead.
    rewrite bool_decide_true by done. cbn [negb orb].
    rewrite bool_decide_false by done. by rewrite Htail.
  - apply bool_decide_eq_true in H2. subst first.
    change ("//" +:+ Py.join_parts others)
      with (String "/" (String "/" (Py.join_parts others))).
    cbn [Pathlib.starts_sep Pathlib.rest]. rewrite Hlead.
    rewrite !bool_decide_true by done. cbn [negb orb].
    rewrite bool_decide_false by done. by rewrite Htail.
  - simpl in Hfirst.
    assert (Hall : forallb Pathlib.one_part (first :: others) = true)
      by (simpl; by rewrite Hfirst, Hothers).
    rewrite (join_no_lead _ Hall). cbn [negb].
    rewrite bool_decide_true by done. apply (tail_join _ Hall).
Qed.

Lemma local_dir_names_model_path (output_dir name : string) :
  Pathlib.one_part name = true ->
  Pathlib.parse (Pathlib.render (Download.model_path_of output_dir name)) =
    Download.model_path_of output_dir name.
Proof.
  intros Hname. apply parse_render, well_formed_div; [|done].
  apply parse_well_formed.
Qed.


Lemma render_is_str_path (p : Py.Path) :
  hd_error p <> Some "//"%string -> Pathlib.render p = Py.str_path p.
Proof.
  destruct p as [|first others]; [done|]. intros Hroot. simpl.
  destruct (bool_decide (first = "/")) eqn:H1.
  - apply bool_decide_eq_true in H1. by subst first.
  - rewrite bool_decide_false by (intros ->; by apply Hroot). simpl.
    apply bool_decide_eq_false in H1. clear Hroot.
    by destruct first as
      [|[[] [] [] [] [] [] [] []] [|? ?]].
Qed.

(** [Path(os.path.join(d, name))] is [Path(d) / name] for a one-part name,
    however the directory [d] is written (empty, with trailing or doubled
    slashes, with [.] segments): its last part is [name] and its parent is
    [Path(d)]. *)
Theorem joined_string_is_child_path (d name : string) :
  Pathlib.one_part name = true ->
  Pathlib.parse (Py.os_path_join d name) = Py.div (Pathlib.parse d) name /\
  Py.name (Pathlib.parse (Py.os_path_join d name)) = name /\
  Py.parent (Pathlib.parse (Py.os_path_join d name)) = Pathlib.parse d.
Proof.
  intros Hname. rewrite parse_join by done.
  split; [done|]. split; [apply name_div | apply parent_div].
Qed.

(** [Path(str(p)) == p] for the paths the scripts build: parsing a string,
    printing the path and parsing again changes nothing, also after a
    one-part name was appended with [/]. *)
Theorem rendered_path_parses_back (s : string) :
  Pathlib.parse (Pathlib.render (Pathlib.parse s)) = Pathlib.parse s /\
  forall name,
    Pathlib.one_part name = true ->
    Pathlib.parse (Pathlib.render (Py.div (Pathlib.parse s) name)) =
      Py.div (Pathlib.parse s) name.
Proof.
  split.
  - apply parse_render, parse_well_formed.
  - intros name Hname. by apply local_dir_names_model_path.
Qed.

(** *** What [download_model] does *)

Lemma models_names (model_type name : string) :
  Dict.get Download.MODELS model_type = Some name ->
  name = "Wan2.2-" +:+ Py.upper model_type /\
  Pathlib.one_part name = true /\
  task_class model_type <> None.
Proof.
  unfold Download.MODELS. simpl.
  repeat (case_bool_decide; [subst model_type; intros [= <-]; by vm_compute|]).
  done.
Qed.

(** X14: for every model type of [MODELS], the directory [download_model] fills
    under a models directory is the directory [get_model] looks for under
    the same [MODEL_PATH], and [get_model] has a model class for it. *)
Theorem downloaded_dir_is_checkpoint_dir `{D : Deployment}
    (model_type name : string) :
  Dict.get Download.MODELS model_type = Some name ->
  Pathlib.parse (checkpoint_dir_of model_type) =
    Download.model_path_of MODEL_PATH name /\
  Py.name (Download.model_path_of MODEL_PATH name) =
    "Wan2.2-" +:+ Py.upper model_type /\
  task_class model_type <> None.
Proof.
  intros Hget. destruct (models_names model_type name Hget) as (Hname & Hone & Hcls).
  unfold checkpoint_dir_of, Download.model_path_of.
  rewrite <- Hname, name_div. split; [by apply parse_join | done].
Qed.


(** X16: the script prints [Model download complete!] as its last line exactly
    when [download_model] returned, which includes the run that found the
    directory in place and downloaded nothing; after a [sys.exit(1)] the
    line is not printed. *)
Theorem main_announces_completion (h : Download.Hub) (env : gmap string string) :
  let r := Download.main h env in
  let run :=
    Download.download_model h
      (Download.getenv env "MODEL_TYPE" "ti2v-5B")
      (Download.getenv env "MODEL_PATH" "/app/models") in
  Download.ending r = Download.ending run /\
  Download.downloads r = Download.downloads run /\
  (List.last (Download.stdout r) "" = "Model download complete!" <->
   Download.ending r = Download.Returns).
Proof.
  unfold Download.main. simpl. split; [done|]. split; [done|].
  generalize (Download.getenv env "MODEL_TYPE" "ti2v-5B") as t.
  generalize (Download.getenv env "MODEL_PATH" "/app/models") as d.
  intros d t. unfold Download.download_model, Dict.mem.
  destruct (Dict.get Download.MODELS t) as [name|]; simpl.
  2: { split; [intros Hd; vm_compute in Hd; discriminate Hd | done]. }
  destruct (Download.path_exists h (Download.model_path_of d name)); simpl;
    [done|].
  match goal with
  | |- context [Download.snapshot_download_raises h ?x] =>
      destruct (Download.snapshot_download_raises h x)
  end; simpl; [|done].
  split; [intros Hd; vm_compute in Hd; discriminate Hd | done].
Qed.

(** *** The smoke test *)

Lemma and_then_probe (get : Smoke.Client) (heading url label : string)
    (next : Smoke.Report) :
  Smoke.passed (Smoke.and_then (Smoke.probe get heading url label) next) =
    Smoke.healthy get url && Smoke.passed next /\
  Smoke.requested (Smoke.and_then (Smoke.probe get heading url label) next) =
    url :: (if Smoke.healthy get url then Smoke.requested next else []).
Proof.
  unfold Smoke.and_then, Smoke.probe, Smoke.healthy.
  destruct (get url) as [response|fl]; [|done].
  destruct (Smoke.status_code response =? 200); [|done].
  by destruct (Smoke.json response).
Qed.

Lemma test_api_passed (get : Smoke.Client) (base_url : string) :
  Smoke.passed (Smoke.test_api get base_url) =
    forallb (Smoke.healthy get) (Smoke.urls base_url).
Proof.
  unfold Smoke.test_api, Smoke.urls.
  unfold Smoke.and_then at 1. cbn [Smoke.passed].
  rewrite !(fun h u l n => proj1 (and_then_probe get h u l n)).
  cbn [forallb Smoke.passed]. by rewrite andb_true_r.
Qed.

(** X17: [test_api] returns [True] exactly when each of its four URLs answers
    200 with a JSON body; it tries them in order and stops after the first
    one that does not; the exit status of the script is 0 for [True] and 1
    otherwise. *)
Theorem test_api_verdict (get : Smoke.Client) (base_url : string) :
  Smoke.passed (Smoke.test_api get base_url) =
    forallb (Smoke.healthy get) (Smoke.urls base_url) /\
  Smoke.requested (Smoke.test_api get base_url) =
    Smoke.until_first_failure get (Smoke.urls base_url) /\
  forall program,
    Smoke.main get [program; base_url] =
      if forallb (Smoke.healthy get) (Smoke.urls base_url) then 0 else 1.
Proof.
  split; [apply test_api_passed|]. split.
  - unfold Smoke.test_api, Smoke.urls.
    unfold Smoke.and_then at 1. cbn [Smoke.passed Smoke.requested app].
    rewrite !(fun h u l n => proj2 (and_then_probe get h u l n)).
    reflexivity.
  - intros program. unfold Smoke.main. by rewrite test_api_passed.
Qed.

(** X18: run against this service, with every request getting through, the
    smoke test passes exactly when [ti2v-5B] is a key of
    [SUPPORTED_SIZES]: the three metadata endpoints always answer 200, and
    the test asks for the sizes of [ti2v-5B] whatever the deployment
    serves. *)
Theorem smoke_test_against_service `{D : Deployment}
    (get : Smoke.Client) (base_url : string) (w : World) (s : State) :
  Smoke.answers_as get (base_url +:+ "/") (fst (serve GET_root w s)) ->
  Smoke.answers_as get (base_url +:+ "/health") (fst (serve GET_health w s)) ->
  Smoke.answers_as get (base_url +:+ "/tasks") (fst (serve GET_tasks w s)) ->
  Smoke.answers_as get (base_url +:+ "/sizes/ti2v-5B")
    (fst (serve (GET_sizes "ti2v-5B") w s)) ->
  Smoke.passed (Smoke.test_api get base_url) =
    Dict.mem "ti2v-5B" SUPPORTED_SIZES.
Proof.
  intros (r1 & H1 & Hs1 & Hj1) (r2 & H2 & Hs2 & Hj2) (r3 & H3 & Hs3 & Hj3)
         (r4 & H4 & Hs4 & Hj4).
  rewrite test_api_passed.
  unfold Smoke.urls, Smoke.healthy. cbn [forallb].
  rewrite H1, H2, H3, H4, Hs1, Hs2, Hs3, Hs4.
  rewrite (Hj1 _ eq_refl), (Hj2 _ eq_refl), (Hj3 _ eq_refl).
  simpl. simpl in Hj4. unfold list_sizes in *.
  destruct (Dict.mem "ti2v-5B" SUPPORTED_SIZES) eqn:Hmem; simpl in *; [|done].
  apply mem_get in Hmem as [sizes Hsizes]. rewrite Hsizes in *.
  simpl in *. by rewrite (Hj4 _ eq_refl).
Qed.

(** * The further properties on sample requests *)

Lemma seed_witness :
  CallGenerate Sample.ti2v_model Cases.seeded_args
    ∈ new_calls initial
        (snd (serve (POST_generate Cases.seeded_form) Sample.ready initial)) /\
  g_seed Cases.seeded_args = 7 /\
  CallGenerate Sample.ti2v_model (Sample.ti2v_args 50)
    ∈ new_calls initial
        (snd (serve (POST_generate (Sample.form "ti2v-5B" None))
                Sample.ready initial)) /\
  g_seed (Sample.ti2v_args 50) = random_randint Sample.ready 0 sys_maxsize.
Proof.
  assert (Hseeded :
    CallGenerate Sample.ti2v_model Cases.seeded_args
      ∈ new_calls initial
          (snd (serve (POST_generate Cases.seeded_form) Sample.ready initial)))
    by (apply (list_elem_of_lookup_2 _ 1%nat); vm_compute; reflexivity).
  assert (Hdrawn :
    CallGenerate Sample.ti2v_model (Sample.ti2v_args 50)
      ∈ new_calls initial
          (snd (serve (POST_generate (Sample.form "ti2v-5B" None))
                  Sample.ready initial)))
    by (apply (list_elem_of_lookup_2 _ 1%nat); vm_compute; reflexivity).
  split; [exact Hseeded|]. split.
  - apply (seed_passed_or_drawn Sample.ready Cases.seeded_form initial
             Sample.ti2v_model Cases.seeded_args Hseeded).
    vm_compute. discriminate.
  - split; [exact Hdrawn|].
    apply (seed_passed_or_drawn Sample.ready (Sample.form "ti2v-5B" None)
             initial Sample.ti2v_model (Sample.ti2v_args 50) Hdrawn).
    reflexivity.
Defined.

Lemma generate_call_by_branch_witness :
  is_Some (form_image (Sample.form "t2v-A14B" (Some Cases.kite_upload))) /\
  CallGenerate Cases.t2v_model Cases.t2v_args
    ∈ new_calls initial
        (snd (serve (POST_generate
                       (Sample.form "t2v-A14B" (Some Cases.kite_upload)))
                Sample.ready initial)) /\
  g_img Cases.t2v_args = None /\
  g_max_area Cases.t2v_args = None.
Proof.
  assert (Hcfg :
    Dict.get WAN_CONFIGS
      (task_of (Sample.form "t2v-A14B" (Some Cases.kite_upload))) =
      Some Sample.t2v_A14B)
    by (vm_compute; reflexivity).
  assert (Hcall :
    CallGenerate Cases.t2v_model Cases.t2v_args
      ∈ new_calls initial
          (snd (serve (POST_generate
                         (Sample.form "t2v-A14B" (Some Cases.kite_upload)))
                  Sample.ready initial)))
    by (apply (list_elem_of_lookup_2 _ 1%nat); vm_compute; reflexivity).
  split; [by eexists|]. split; [exact Hcall|].
  destruct (generate_call_by_branch Sample.ready
              (Sample.form "t2v-A14B" (Some Cases.kite_upload)) initial
              Sample.t2v_A14B Cases.t2v_model Cases.t2v_args Hcfg Hcall)
    as (_ & _ & _ & _ & Hbranch).
  vm_compute in Hbranch. destruct Hbranch as (Himg & _ & _ & Harea).
  split; [exact Himg | exact Harea].
Defined.

Lemma rejected_before_loading_witness :
  serve (POST_generate (Sample.form "t2v-A14B" (Some Cases.kite_upload)))
    Cases.unreadable initial =
    ({| status := 500;
        body := error_body
                  "Video generation failed: cannot identify image file" |},
     initial).
Proof.
  apply (proj2 (proj2 (rejected_before_loading Cases.unreadable
                         (Sample.form "t2v-A14B" (Some Cases.kite_upload))
                         initial))
           Cases.kite_upload Cases.unreadable_error);
    vm_compute; reflexivity.
Defined.

Lemma loaded_model_outlives_request_witness :
  status (fst (serve (POST_generate (Sample.form "i2v-A14B" None))
                 Sample.ready initial)) = 500 /\
  _model_cache (snd (serve (POST_generate (Sample.form "i2v-A14B" None))
                       Sample.ready initial)) !! "i2v-A14B" =
    Some Cases.i2v_model.
Proof.
  split; [vm_compute; reflexivity|].
  apply (loaded_model_outlives_request Sample.ready
           (Sample.form "i2v-A14B" None) initial Cases.i2v_model);
    vm_compute; reflexivity.
Defined.

Lemma generate_runs_on_cached_model_witness :
  fst (get_model Sample.ready "ti2v-5B" initial) = Return Sample.ti2v_model /\
  _model_cache (snd (serve (POST_generate (Sample.form "ti2v-5B" None))
                       Sample.ready initial)) !! "ti2v-5B" =
    Some Sample.ti2v_model.
Proof.
  apply (generate_runs_on_cached_model Sample.ready
           (Sample.form "ti2v-5B" None) initial Sample.ti2v_model
           (Sample.ti2v_args 50)).
  apply (list_elem_of_lookup_2 _ 1%nat). vm_compute; reflexivity.
Defined.

Lemma disk_changes_witness :
  files (snd (serve (POST_generate (Sample.form "ti2v-5B" None))
                Sample.out_of_memory initial)) = ∅ /\
  files (snd (serve (POST_generate (Sample.form "ti2v-5B" None))
                Sample.ready initial)) =
    <[Sample.saved_file := index_None Sample.clip]> ∅.
Proof.
  destruct (disk_changes_by_one_save Sample.out_of_memory
              (Sample.form "ti2v-5B" None) initial) as [Hnone _].
  destruct (disk_changes_by_one_save Sample.ready
              (Sample.form "ti2v-5B" None) initial) as [_ Hsaved].
  split.
  - apply Hnone. intros sa Hin. exfalso. revert Hin.
    replace (new_calls initial
               (snd (serve (POST_generate (Sample.form "ti2v-5B" None))
                       Sample.out_of_memory initial)))
      with [CallGenerate Sample.ti2v_model (Sample.ti2v_args 50);
            CallInit WanTI2V (model_init Sample.ti2v_model)]
      by (vm_compute; reflexivity).
    intros Hin. apply elem_of_cons in Hin as [Hin|Hin]; [discriminate Hin|].
    apply elem_of_cons in Hin as [Hin|Hin]; [discriminate Hin|].
    by apply elem_of_nil in Hin.
  - apply (Hsaved Cases.saved); [|reflexivity].
    apply (list_elem_of_lookup_2 _ 0%nat). vm_compute; reflexivity.
Defined.

Lemma failure_after_save_witness :
  reports (fst (serve (POST_generate (Sample.form "ti2v-5B" None))
                  Cases.flush_fails initial)) (Foreign Cases.flush_error) /\
  files (snd (serve (POST_generate (Sample.form "ti2v-5B" None))
                Cases.flush_fails initial)) !! Sample.saved_file =
    Some (index_None Sample.clip).
Proof.
  destruct (failure_after_save_leaves_file Cases.flush_fails
              (Sample.form "ti2v-5B" None) initial Cases.saved
              Cases.flush_error) as (Hreport & Hfile & _);
    [apply (list_elem_of_lookup_2 _ 0%nat); vm_compute; reflexivity
    |reflexivity | reflexivity |].
  split; [exact Hreport | exact Hfile].
Defined.

Lemma one_model_per_cached_task_witness :
  constructed
    (run [(POST_generate (Sample.form "ti2v-5B" None), Sample.ready);
          (POST_generate (Sample.form "t2v-A14B" None), Sample.ready);
          (POST_generate (Sample.form "ti2v-5B" None), Sample.ready)]
       initial) = 2%nat /\
  size (_model_cache
          (run [(POST_generate (Sample.form "ti2v-5B" None), Sample.ready);
                (POST_generate (Sample.form "t2v-A14B" None), Sample.ready);
                (POST_generate (Sample.form "ti2v-5B" None), Sample.ready)]
             initial)) = 2%nat.
Proof.
  assert (Hcount :
    constructed
      (run [(POST_generate (Sample.form "ti2v-5B" None), Sample.ready);
            (POST_generate (Sample.form "t2v-A14B" None), Sample.ready);
            (POST_generate (Sample.form "ti2v-5B" None), Sample.ready)]
         initial) = 2%nat)
    by (vm_compute; reflexivity).
  split; [exact Hcount|].
  rewrite (proj1 (one_model_per_cached_task
                    [(POST_generate (Sample.form "ti2v-5B" None), Sample.ready);
                     (POST_generate (Sample.form "t2v-A14B" None), Sample.ready);
                     (POST_generate (Sample.form "ti2v-5B" None), Sample.ready)])).
  exact Hcount.
Defined.

Lemma failed_load_is_retried_witness :
  exists m s2,
    get_model Sample.ready "t2v-A14B"
      (snd (get_model Sample.no_checkpoints "t2v-A14B" initial)) =
      (Return m, s2) /\
    handle m = 0%nat /\
    _model_cache s2 !! "t2v-A14B" = Some m.
Proof.
  destruct (failed_load_is_retried Sample.no_checkpoints Sample.ready
              "t2v-A14B" initial
              (FileNotFoundError
                 "Model checkpoint not found at ./models/Wan2.2-T2V-A14B")
              initial Sample.t2v_A14B WanT2V)
    as (m & s2 & Hcall & Hhandle & Hcached & _);
    [vm_compute; reflexivity ..|].
  exists m, s2. split; [exact Hcall|]. split; [exact Hhandle | exact Hcached].
Defined.

Lemma listed_tasks_witness :
  JString "ti2v-5B"
    ∈ [JString "t2v-A14B"; JString "i2v-A14B"; JString "ti2v-5B"] /\
  fst (post_generate_try Sample.ready (Sample.form "ti2v-5B" None) initial) <>
    Raise (HTTPException 400 "Unsupported task: ti2v-5B").
Proof.
  assert (Hlisted :
    JString "ti2v-5B"
      ∈ [JString "t2v-A14B"; JString "i2v-A14B"; JString "ti2v-5B"])
    by (apply (list_elem_of_lookup_2 _ 2%nat); reflexivity).
  assert (Hitems :
    field list_tasks "available_tasks" =
      Some (JArray [JString "t2v-A14B"; JString "i2v-A14B"; JString "ti2v-5B"]))
    by (vm_compute; reflexivity).
  split; [exact Hlisted|].
  apply (proj1 (listed_tasks_pass_validation Sample.ready
                  (Sample.form "ti2v-5B" None) initial
                  [JString "t2v-A14B"; JString "i2v-A14B"; JString "ti2v-5B"]
                  Hitems)).
  exact Hlisted.
Defined.

Lemma key_error_witness :
  fst (post_generate_try (D := Cases.lopsided) Sample.ready Cases.small_form
         initial) = Raise (KeyError "832*480") /\
  Dict.mem "832*480" (SIZE_CONFIGS (Deployment := Cases.lopsided)) = true /\
  Dict.mem "832*480" (MAX_AREA_CONFIGS (Deployment := Cases.lopsided)) = false.
Proof.
  assert (Hraise :
    fst (post_generate_try (D := Cases.lopsided) Sample.ready Cases.small_form
           initial) = Raise (KeyError "832*480"))
    by (vm_compute; reflexivity).
  split; [exact Hraise|].
  destruct (key_error_only_from_max_area (D := Cases.lopsided) Sample.ready
              Cases.small_form initial "832*480" Hraise)
    as (_ & Hsize & Harea & _).
  split; [exact Hsize | exact Harea].
Defined.

Lemma joined_string_witness :
  Pathlib.parse (Py.os_path_join "./models//" "Wan2.2-TI2V-5B") =
    ["models"; "Wan2.2-TI2V-5B"] /\
  Py.parent (Pathlib.parse (Py.os_path_join "./models//" "Wan2.2-TI2V-5B")) =
    Pathlib.parse "./models//".
Proof.
  destruct (joined_string_is_child_path "./models//" "Wan2.2-TI2V-5B")
    as (Hchild & _ & Hparent); [vm_compute; reflexivity|].
  split; [exact Hchild | exact Hparent].
Defined.

Lemma downloaded_dir_witness :
  Pathlib.parse (checkpoint_dir_of "ti2v-5B") = ["models"; "Wan2.2-TI2V-5B"] /\
  Download.model_path_of MODEL_PATH "Wan2.2-TI2V-5B" =
    ["models"; "Wan2.2-TI2V-5B"].
Proof.
  destruct (downloaded_dir_is_checkpoint_dir "ti2v-5B" "Wan2.2-TI2V-5B")
    as (Hsame & _ & _); [vm_compute; reflexivity|].
  split; [|vm_compute; reflexivity].
  rewrite Hsame. vm_compute; reflexivity.
Defined.


Lemma main_announces_completion_witness :
  Download.ending (Download.main Cases.stocked_hub ∅) = Download.Returns /\
  List.last (Download.stdout (Download.main Cases.stocked_hub ∅)) "" =
    "Model download complete!" /\
  Download.downloads (Download.main Cases.stocked_hub ∅) = [].
Proof.
  destruct (main_announces_completion Cases.stocked_hub ∅)
    as (_ & Hdownloads & Hlast).
  assert (Hend :
    Download.ending (Download.main Cases.stocked_hub ∅) = Download.Returns)
    by (vm_compute; reflexivity).
  split; [exact Hend|]. split; [exact (proj2 Hlast Hend)|].
  rewrite Hdownloads. vm_compute; reflexivity.
Defined.

Lemma smoke_test_witness :
  Smoke.passed
    (Smoke.test_api
       (Cases.client "http://localhost:8000" Sample.ready initial)
       "http://localhost:8000") = true /\
  Smoke.passed
    (Smoke.test_api
       (Cases.client (D := Cases.lopsided) "http://localhost:8000"
          Sample.ready initial)
       "http://localhost:8000") = false.
Proof.
  split.
  - rewrite (smoke_test_against_service
               (Cases.client "http://localhost:8000" Sample.ready initial)
               "http://localhost:8000" Sample.ready initial);
      [vm_compute; reflexivity | ..];
      (eexists; split; [vm_compute; reflexivity|]; split; [reflexivity|]);
      intros j Hj; vm_compute in Hj |- *; congruence.
  - rewrite (smoke_test_against_service (D := Cases.lopsided)
               (Cases.client (D := Cases.lopsided) "http://localhost:8000"
                  Sample.ready initial)
               "http://localhost:8000" Sample.ready initial);
      [vm_compute; reflexivity | ..];
      (eexists; split; [vm_compute; reflexivity|]; split; [reflexivity|]);
      intros j Hj; vm_compute in Hj |- *; congruence.
Defined.
